(** * label-when-approved-action: the review aggregation, the approval
    decision and the label orchestration, embedded from the two source files
    [src/index.js] (module [IndexJs]) and [src/unnamed/part_000] (module
    [Part000]).

    What is modelled and how:
    - [async]/[await] code runs sequentially, so it is written in a small
      state-and-exception monad [M]; the state is the chronological trace of
      the observable effects (API requests with their replies, warnings,
      outputs, the failure signal).
    - the API client is a responder that sees the trace so far, so replies may
      depend on everything that happened before;
    - [core.info] only prints to the job log and never influences control
      flow: it is left out of the trace;
    - the object [reviewStates] is an association list with one entry per
      key, overwritten in place; only the lengths of the two arrays built from
      it are observed, so the enumeration order of [for ... in] is immaterial;
      its keys are logins of the hosting service (letters, digits and
      hyphens), which are ordinary property names;
    - [parseInt], [core.getInput], [process.env], [github.getOctokit] and
      [github.context] belong to the platform and are fields of [Runtime]. *)

From Stdlib Require Import String Ascii List ZArith Bool Lia Permutation.
Import ListNotations.
Local Open Scope string_scope.
Local Open Scope list_scope.

(** ** JavaScript values *)

(** A number as [parseInt] can return it, or as an API payload carries it. *)
Inductive JsNum : Type :=
| Fin (z : Z)
| NaN
| PosInfinity
| NegInfinity.

(** [n >= x] where [n] is an array length. *)
Definition length_ge (n : nat) (x : JsNum) : bool :=
  match x with
  | Fin z => (z <=? Z.of_nat n)%Z
  | NaN => false
  | PosInfinity => false
  | NegInfinity => true
  end.

Record JsError : Type := { error_name : string; message : string }.

Definition Error (msg : string) : JsError :=
  {| error_name := "Error"; message := msg |}.
Definition TypeError (msg : string) : JsError :=
  {| error_name := "TypeError"; message := msg |}.
Definition ReferenceError (msg : string) : JsError :=
  {| error_name := "ReferenceError"; message := msg |}.

(** [String(b)] *)
Definition String_bool (b : bool) : string := if b then "true" else "false".

(** [x || d] for a string [x]: the empty string is falsy. *)
Definition or_default (x d : string) : string := if x =? "" then d else x.

(** [l.includes(x)] *)
Definition includes (l : list string) (x : string) : bool :=
  existsb (String.eqb x) l.

(** [s.split('/')] *)
Fixpoint split_on (sep : ascii) (s : string) : list string :=
  match s with
  | EmptyString => [EmptyString]
  | String c s' =>
      if Ascii.eqb c sep then EmptyString :: split_on sep s'
      else match split_on sep s' with
           | [] => [String c EmptyString]
           | p :: ps => String c p :: ps
           end
  end.

Definition dq : string := String (ascii_of_nat 34) EmptyString.
Definition nl : string := String (ascii_of_nat 10) EmptyString.

(** ** Data of the hosting API *)

Record User : Type := { login : string }.
Record Review : Type := { user : User; state : string }.
Record Label : Type := { name : string }.
Record PullRequest : Type := { number : Z; labels : list Label }.

(** [context.payload.pull_request], when the event embeds one. *)
Record PullRequestRef : Type := { ref_number : option Z }.
Record Context : Type := { payload_pull_request : option PullRequestRef }.

(** ** Effects *)

(** The routes the program requests, with their parameters. [repo] is the
    second piece of [repository.split('/')], which may be missing. *)
Inductive Call : Type :=
| GetPull (owner : string) (repo : option string) (pull_number : JsNum)
| GetPullReviews (owner : string) (repo : option string) (pull_number : Z)
| GetPermission (owner : string) (repo : option string) (username : string)
| PostLabels (owner : string) (repo : option string) (issue_number : Z)
    (labels : list string)
| PostComment (owner : string) (repo : option string) (issue_number : Z)
    (body : string)
| DeleteLabel (owner : string) (repo : option string) (issue_number : Z)
    (name : string).

Inductive Reply : Type :=
| PullData (pr : PullRequest)
| ReviewsData (reviews : list Review)
| PermissionData (permission : string)
| NoData
| Rejected (e : JsError).

Inductive Effect : Type :=
| Request (c : Call) (r : Reply)
| Warning (msg : string)
| SetOutput (name value : string)
| SetFailed (msg : string).

Definition Trace : Type := list Effect.

(** The API client: each route answers from the trace so far. *)
Record Octokit : Type := {
  respond_pull : Trace -> Call -> JsError + PullRequest;
  respond_reviews : Trace -> Call -> JsError + list Review;
  respond_permission : Trace -> Call -> JsError + string;
  respond_write : Trace -> Call -> JsError + unit
}.

Record Runtime : Type := {
  getInput : string -> string;
  getInputRequired : string -> JsError + string;
  process_env : string -> option string;
  parseInt : string -> JsNum;
  getOctokit : string -> Octokit;
  context : Context
}.

(** ** The monad of sequential effectful code *)

Inductive Completion (A : Type) : Type :=
| Normal (a : A)
| Throw (e : JsError).
Arguments Normal {A} a.
Arguments Throw {A} e.

Definition M (A : Type) : Type := Trace -> Trace * Completion A.

Definition ret {A} (a : A) : M A := fun t => (t, Normal a).

Definition throw {A} (e : JsError) : M A := fun t => (t, Throw e).

Definition bind {A B} (m : M A) (k : A -> M B) : M B :=
  fun t =>
    match m t with
    | (t', Normal a) => k a t'
    | (t', Throw e) => (t', Throw e)
    end.

Definition try_catch {A} (body : M A) (handler : JsError -> M A) : M A :=
  fun t =>
    match body t with
    | (t', Normal a) => (t', Normal a)
    | (t', Throw e) => handler e t'
    end.

Definition emit (e : Effect) : M unit := fun t => (t ++ [e], Normal tt).

Notation "x <- m ;; k" := (bind m (fun x => k))
  (at level 61, m at next level, right associativity).
Notation "' p <- m ;; k" := (bind m (fun x => match x with p => k end))
  (at level 61, p pattern, m at next level, right associativity).
Notation "m ;; k" := (bind m (fun _ => k))
  (at level 61, right associativity).

(** [await octokit.request(route, params)]: the reply is logged with the
    call; a rejected request throws. *)
Definition request {A} (respond : Trace -> Call -> JsError + A)
    (wrap : A -> Reply) (c : Call) : M A :=
  fun t =>
    match respond t c with
    | inr a => (t ++ [Request c (wrap a)], Normal a)
    | inl e => (t ++ [Request c (Rejected e)], Throw e)
    end.

Definition warning (msg : string) : M unit := emit (Warning msg).
Definition setOutput (name value : string) : M unit :=
  emit (SetOutput name value).
Definition setFailed (msg : string) : M unit := emit (SetFailed msg).

(** ** Functions the two files share word for word *)

Definition getRequiredEnv (rt : Runtime) (key : string) : M string :=
  match process_env rt key with
  | None => throw (Error (key ++ " was not defined."))
  | Some value => ret value
  end.

Definition verboseOutput (name value : string) : M unit :=
  setOutput name value.

Definition setLabel (octokit : Octokit) (owner : string) (repo : option string)
    (pullRequestNumber : Z) (label : string) : M unit :=
  request (respond_write octokit) (fun _ => NoData)
    (PostLabels owner repo pullRequestNumber [label]).

Definition removeLabel (octokit : Octokit) (owner : string)
    (repo : option string) (pullRequestNumber : Z) (label : string) : M unit :=
  request (respond_write octokit) (fun _ => NoData)
    (DeleteLabel owner repo pullRequestNumber label).

(** [reviewStates[key] = value] on an object. *)
Fixpoint obj_set (key value : string) (o : list (string * string))
  : list (string * string) :=
  match o with
  | [] => [(key, value)]
  | (k, v) :: o' =>
      if k =? key then (k, value) :: o' else (k, v) :: obj_set key value o'
  end.

(** [reviewStates[key]] *)
Fixpoint obj_get (key : string) (o : list (string * string)) : option string :=
  match o with
  | [] => None
  | (k, v) :: o' => if k =? key then Some v else obj_get key o'
  end.

(** One iteration of the first loop of [processReviews]. *)
Definition recordReview (committers : list string)
    (requireCommittersApproval : bool) (reviewStates : list (string * string))
    (review : Review) : list (string * string) :=
  if (state review =? "APPROVED") || (state review =? "CHANGES_REQUESTED") then
    if requireCommittersApproval && includes committers (login (user review))
    then obj_set (login (user review)) (state review) reviewStates
    else if negb requireCommittersApproval
    then obj_set (login (user review)) (state review) reviewStates
    else reviewStates
  else reviewStates.

(** The first loop of [processReviews]: the Reviewer State Map. *)
Definition reviewStates (reviews : list Review) (committers : list string)
    (requireCommittersApproval : bool) : list (string * string) :=
  fold_left (recordReview committers requireCommittersApproval) reviews [].

(** One iteration of the loop that fills [approved] and [changesRequested]. *)
Definition partitionStep (acc : list string * list string)
    (entry : string * string) : list string * list string :=
  let '(approved, changesRequested) := acc in
  let '(user, st) := entry in
  if st =? "APPROVED" then (approved ++ [user], changesRequested)
  else if st =? "CHANGES_REQUESTED" then (approved, changesRequested ++ [user])
  else (approved, changesRequested).

(** The rest of [processReviews], from the state map on. *)
Definition decide (reviewStates : list (string * string))
    (numOfApprovals : JsNum) : bool :=
  let '(approved, changesRequested) :=
    fold_left partitionStep reviewStates ([], []) in
  let isApproved := false in
  let isApproved :=
    if length_ge (length approved) numOfApprovals then true else isApproved in
  let isApproved :=
    if (0 <? length changesRequested)%nat then false else isApproved in
  isApproved.

Definition processReviews (reviews : list Review) (committers : list string)
    (requireCommittersApproval : bool) (numOfApprovals : JsNum) : bool :=
  decide (reviewStates reviews committers requireCommittersApproval)
    numOfApprovals.

(** The permission loop of [getReviews], the same in both files; it threads
    [reviewersAlreadyChecked] and [committers]. *)
Fixpoint checkReviewers (octokit : Octokit) (owner : string)
    (repo : option string) (reviewers : list string)
    (reviewersAlreadyChecked committers : list string)
  : M (list string * list string) :=
  match reviewers with
  | [] => ret (reviewersAlreadyChecked, committers)
  | reviewer :: rest =>
      if negb (includes reviewersAlreadyChecked reviewer) then
        permission <- request (respond_permission octokit) PermissionData
                        (GetPermission owner repo reviewer) ;;
        let committers :=
          if (permission =? "admin") || (permission =? "write")
          then committers ++ [reviewer] else committers in
        checkReviewers octokit owner repo rest
          (reviewersAlreadyChecked ++ [reviewer]) committers
      else
        checkReviewers octokit owner repo rest reviewersAlreadyChecked
          committers
  end.

(** The messages of [run], the same in both files. *)
Definition missing_number_warning : string :=
  "If action is triggered by " ++ dq ++ "workflow_run" ++ dq ++
  " then input " ++ dq ++ "pullRequestNumber" ++ dq ++ " is required." ++ nl ++
  "It might be missing because the pull request might have been already merged or a fixup pushed to" ++
  "the PR branch. None of the outputs will be set as we cannot find the right PR.".

Definition unsupported_event_message (eventName : string) : string :=
  "This action is only useful in " ++ dq ++ "pull_request_review" ++ dq ++
  " or " ++ dq ++ "workflow_run" ++ dq ++
  " triggered runs and you used it in " ++ dq ++ eventName ++ dq.

(** [parseInt(core.getInput('numOfApprovals') || 1)]: [parseInt(1)] is 1. *)
Definition read_numOfApprovals (rt : Runtime) : JsNum :=
  if getInput rt "numOfApprovals" =? "" then Fin 1
  else parseInt rt (getInput rt "numOfApprovals").

(** [const [owner, repo] = repository.split('/')] *)
Definition split_repository (repository : string) : string * option string :=
  let parts := split_on "/"%char repository in
  (nth 0 parts "", nth_error parts 1).

(** ** [src/unnamed/part_000] *)

Module Part000.

Definition addComment (octokit : Octokit) (owner : string)
    (repo : option string) (pullRequestNumber : Z) (comment : string)
  : M unit :=
  request (respond_write octokit) (fun _ => NoData)
    (PostComment owner repo pullRequestNumber comment).

Definition getReviews (octokit : Octokit) (owner : string)
    (repo : option string) (pullRequestNumber : Z)
    (requireCommittersApproval : bool) : M (list Review * list string) :=
  reviews <- request (respond_reviews octokit) ReviewsData
               (GetPullReviews owner repo pullRequestNumber) ;;
  let reviewers :=
    if (0 <? length reviews)%nat
    then map (fun review => login (user review)) reviews else [] in
  '(_, committers) <-
    (if requireCommittersApproval
     then checkReviewers octokit owner repo reviewers [] []
     else ret ([], [])) ;;
  ret (reviews, committers).

(** The block of [run] under "Add or remove the label"; it returns
    [(shouldLabelBeSet, shouldLabelBeRemoved)]. *)
Definition run_labels (octokit : Octokit) (owner : string)
    (repo : option string) (pullRequestNumber : Z) (userLabel comment : string)
    (removeLabelWhenApprovalMissing isApproved : bool)
    (labelNames : list string) : M (bool * bool) :=
  if negb (userLabel =? "not set") then
    let shouldLabelBeSet := isApproved && negb (includes labelNames userLabel) in
    let shouldLabelBeRemoved :=
      negb isApproved && includes labelNames userLabel
      && removeLabelWhenApprovalMissing in
    (if shouldLabelBeSet then
       setLabel octokit owner repo pullRequestNumber userLabel ;;
       if negb (comment =? "")
       then addComment octokit owner repo pullRequestNumber comment
       else ret tt
     else if shouldLabelBeRemoved then
       removeLabel octokit owner repo pullRequestNumber userLabel
     else ret tt) ;;
    ret (shouldLabelBeSet, shouldLabelBeRemoved)
  else ret (false, false).

(** "Workflow event setup": [Some n] is the pull request number, [None] the
    early [return] after the warning. *)
Definition resolve_number (rt : Runtime) (eventName : string)
    (pullRequestNumberInput : string) : M (option JsNum) :=
  if eventName =? "pull_request_review" then
    let pullRequestNumber :=
      match payload_pull_request (context rt) with
      | Some pull_request => ref_number pull_request
      | None => None
      end in
    match pullRequestNumber with
    | None => throw (Error "Could not find PR number from context, exiting")
    | Some n => ret (Some (Fin n))
    end
  else if eventName =? "workflow_run" then
    if pullRequestNumberInput =? "not set" then
      warning missing_number_warning ;;
      ret None
    else ret (Some (parseInt rt pullRequestNumberInput))
  else throw (Error (unsupported_event_message eventName)).

Definition run (rt : Runtime) : M unit :=
  token <- (match getInputRequired rt "token" with
            | inl e => throw e
            | inr v => ret v
            end) ;;
  let userLabel := or_default (getInput rt "label") "not set" in
  let requireCommittersApproval :=
    getInput rt "require_committers_approval" =? "true" in
  let removeLabelWhenApprovalMissing :=
    getInput rt "remove_label_when_approval_missing" =? "true" in
  let comment := or_default (getInput rt "comment") "" in
  let pullRequestNumberInput :=
    or_default (getInput rt "pullRequestNumber") "not set" in
  let numOfApprovals := read_numOfApprovals rt in
  let octokit := getOctokit rt token in
  repository <- getRequiredEnv rt "GITHUB_REPOSITORY" ;;
  eventName <- getRequiredEnv rt "GITHUB_EVENT_NAME" ;;
  let '(owner, repo) := split_repository repository in
  try_catch
    (resolved <- resolve_number rt eventName pullRequestNumberInput ;;
     match resolved with
     | None => ret tt
     | Some pullRequestNumber =>
         pullRequest <- request (respond_pull octokit) PullData
                          (GetPull owner repo pullRequestNumber) ;;
         let labelNames := map name (labels pullRequest) in
         '(reviews, committers) <-
           getReviews octokit owner repo (number pullRequest)
             requireCommittersApproval ;;
         let isApproved :=
           processReviews reviews committers requireCommittersApproval
             numOfApprovals in
         '(shouldLabelBeSet, shouldLabelBeRemoved) <-
           run_labels octokit owner repo (number pullRequest) userLabel
             comment removeLabelWhenApprovalMissing isApproved labelNames ;;
         verboseOutput "isApproved" (String_bool isApproved) ;;
         verboseOutput "shouldLabelBeSet" (String_bool shouldLabelBeSet) ;;
         verboseOutput "shouldLabelBeRemoved"
           (String_bool shouldLabelBeRemoved)
     end)
    (fun error => setFailed (message error)).

(** [run().then(...).catch((e) => setFailed(e.message))] *)
Definition main (rt : Runtime) : M unit :=
  try_catch (run rt) (fun e => setFailed (message e)).

End Part000.

(** ** [src/index.js] *)

Module IndexJs.

(** [reviews.data] where [reviews] is the array of review records: an array
    has no property [data], the read gives [undefined]. *)
Definition reviews_data (reviews : list Review) : option (list Review) := None.

(** An identifier that no declaration of the file binds. *)
Definition unbound {A} (identifier : string) : M A :=
  throw (ReferenceError (identifier ++ " is not defined")).

Definition getReviews (octokit : Octokit) (owner : string)
    (repo : option string) (pullRequestNumber : Z)
    (requireCommittersApproval : bool) : M (list Review * list string) :=
  reviews <- request (respond_reviews octokit) ReviewsData
               (GetPullReviews owner repo pullRequestNumber) ;;
  reviewers <-
    (if (0 <? length reviews)%nat then
       match reviews_data reviews with
       | Some data => ret (map (fun review => login (user review)) data)
       | None =>
           throw (TypeError
                    "Cannot read properties of undefined (reading 'map')")
       end
     else ret []) ;;
  '(_, committers) <-
    (if requireCommittersApproval
     then checkReviewers octokit owner repo reviewers [] []
     else ret ([], [])) ;;
  ret (reviews, committers).

(** As in [Part000], but [addComment] is not declared in this file. *)
Definition run_labels (octokit : Octokit) (owner : string)
    (repo : option string) (pullRequestNumber : Z) (userLabel comment : string)
    (removeLabelWhenApprovalMissing isApproved : bool)
    (labelNames : list string) : M (bool * bool) :=
  if negb (userLabel =? "not set") then
    let shouldLabelBeSet := isApproved && negb (includes labelNames userLabel) in
    let shouldLabelBeRemoved :=
      negb isApproved && includes labelNames userLabel
      && removeLabelWhenApprovalMissing in
    (if shouldLabelBeSet then
       setLabel octokit owner repo pullRequestNumber userLabel ;;
       if negb (comment =? "")
       then unbound "addComment"
       else ret tt
     else if shouldLabelBeRemoved then
       removeLabel octokit owner repo pullRequestNumber userLabel
     else ret tt) ;;
    ret (shouldLabelBeSet, shouldLabelBeRemoved)
  else ret (false, false).

Definition resolve_number (rt : Runtime) (eventName : string)
    (pullRequestNumberInput : string) : M (option JsNum) :=
  if eventName =? "pull_request_review" then
    let pullRequestNumber :=
      match payload_pull_request (context rt) with
      | Some pull_request => ref_number pull_request
      | None => None
      end in
    match pullRequestNumber with
    | None => throw (Error "Could not find PR number from context, exiting")
    | Some n => ret (Some (Fin n))
    end
  else if (eventName =? "workflow_run") || (eventName =? "workflow_dispatch")
  then
    if pullRequestNumberInput =? "not set" then
      warning missing_number_warning ;;
      ret None
    else ret (Some (parseInt rt pullRequestNumberInput))
  else throw (Error (unsupported_event_message eventName)).

Definition run (rt : Runtime) : M unit :=
  token <- (match getInputRequired rt "token" with
            | inl e => throw e
            | inr v => ret v
            end) ;;
  let userLabel := or_default (getInput rt "label") "not set" in
  let requireCommittersApproval :=
    getInput rt "require_committers_approval" =? "true" in
  let removeLabelWhenApprovalMissing :=
    getInput rt "remove_label_when_approval_missing" =? "true" in
  let comment := or_default (getInput rt "comment") "" in
  let pullRequestNumberInput :=
    or_default (getInput rt "pullRequestNumber") "not set" in
  let numOfApprovals := read_numOfApprovals rt in
  let octokit := getOctokit rt token in
  repository <- getRequiredEnv rt "GITHUB_REPOSITORY" ;;
  eventName <- getRequiredEnv rt "GITHUB_EVENT_NAME" ;;
  let '(owner, repo) := split_repository repository in
  try_catch
    (resolved <- resolve_number rt eventName pullRequestNumberInput ;;
     match resolved with
     | None => ret tt
     | Some pullRequestNumber =>
         pullRequest <- request (respond_pull octokit) PullData
                          (GetPull owner repo pullRequestNumber) ;;
         let labelNames := map name (labels pullRequest) in
         '(reviews, committers) <-
           getReviews octokit owner repo (number pullRequest)
             requireCommittersApproval ;;
         let isApproved :=
           processReviews reviews committers requireCommittersApproval
             numOfApprovals in
         '(shouldLabelBeSet, shouldLabelBeRemoved) <-
           run_labels octokit owner repo (number pullRequest) userLabel
             comment removeLabelWhenApprovalMissing isApproved labelNames ;;
         verboseOutput "isApproved" (String_bool isApproved) ;;
         isLabelShouldBeSet <- unbound "isLabelShouldBeSet" ;;
         verboseOutput "labelSet" (String_bool isLabelShouldBeSet) ;;
         isLabelShouldBeRemoved <- unbound "isLabelShouldBeRemoved" ;;
         verboseOutput "labelRemoved" (String_bool isLabelShouldBeRemoved)
     end)
    (fun error => setFailed (message error)).

Definition main (rt : Runtime) : M unit :=
  try_catch (run rt) (fun e => setFailed (message e)).

End IndexJs.

(** ** Observations on a trace *)

Definition is_request (e : Effect) : bool :=
  match e with Request _ _ => true | _ => false end.

(** The outputs set, in order. *)
Fixpoint outputs (t : Trace) : list (string * string) :=
  match t with
  | [] => []
  | SetOutput n v :: t' => (n, v) :: outputs t'
  | _ :: t' => outputs t'
  end.

(** The failure messages signalled. *)
Fixpoint failures (t : Trace) : list string :=
  match t with
  | [] => []
  | SetFailed m :: t' => m :: failures t'
  | _ :: t' => failures t'
  end.

(** The warnings logged. *)
Fixpoint warnings (t : Trace) : list string :=
  match t with
  | [] => []
  | Warning m :: t' => m :: warnings t'
  | _ :: t' => warnings t'
  end.

(** The permission lookups made, each with its reply. *)
Fixpoint lookups (t : Trace) : list (string * Reply) :=
  match t with
  | [] => []
  | Request (GetPermission _ _ u) r :: t' => (u, r) :: lookups t'
  | _ :: t' => lookups t'
  end.


(** Label-apply, label-remove and comment requests. *)
Definition is_label_apply (e : Effect) : bool :=
  match e with Request (PostLabels _ _ _ _) _ => true | _ => false end.
Definition is_label_remove (e : Effect) : bool :=
  match e with Request (DeleteLabel _ _ _ _) _ => true | _ => false end.
Definition is_comment (e : Effect) : bool :=
  match e with Request (PostComment _ _ _ _) _ => true | _ => false end.
Definition is_write (e : Effect) : bool :=
  is_label_apply e || is_label_remove e || is_comment e.

(** Number of entries of a state map in a given state. *)
Definition count_state (st : string) (m : list (string * string)) : nat :=
  length (filter (fun e => snd e =? st) m).

(** A review that the first loop of [processReviews] looks at: its state is
    one of the two counted states. *)
Definition counted_state (r : Review) : bool :=
  (state r =? "APPROVED") || (state r =? "CHANGES_REQUESTED").

(** ** Sample data for the concrete runs *)

Definition review_of (u st : string) : Review :=
  {| user := {| login := u |}; state := st |}.

(** A client that serves a fixed pull request and review list, answers
    every permission lookup from [perm] and accepts every write. *)
Definition fixed_octokit (pr : PullRequest) (reviews : list Review)
    (perm : string -> string) : Octokit :=
  {| respond_pull := fun _ _ => inr pr;
     respond_reviews := fun _ _ => inr reviews;
     respond_permission := fun _ c =>
       match c with
       | GetPermission _ _ u => inr (perm u)
       | _ => inl (Error "Not Found")
       end;
     respond_write := fun _ _ => inr tt |}.

(** Decimal strings of at most one digit suffice for the samples. *)
Definition sample_parseInt (s : string) : JsNum :=
  if s =? "0" then Fin 0 else if s =? "1" then Fin 1
  else if s =? "2" then Fin 2 else if s =? "7" then Fin 7 else NaN.

Definition sample_runtime (inputs : list (string * string))
    (env : list (string * string)) (ctx : Context) (octokit : Octokit)
  : Runtime :=
  {| getInput := fun n => match obj_get n inputs with Some v => v | None => "" end;
     getInputRequired := fun n =>
       match obj_get n inputs with
       | Some v => if v =? "" then inl (Error ("Input required and not supplied: " ++ n)) else inr v
       | None => inl (Error ("Input required and not supplied: " ++ n))
       end;
     process_env := fun k => obj_get k env;
     parseInt := sample_parseInt;
     getOctokit := fun _ => octokit;
     context := ctx |}.

(** A review that the first loop of [processReviews] writes into
    [reviewStates]: the two nested conditions of the loop body. *)
Definition recorded (committers : list string)
    (requireCommittersApproval : bool) (r : Review) : bool :=
  counted_state r
  && ((requireCommittersApproval && includes committers (login (user r)))
      || negb requireCommittersApproval).

(** ** Predicates of the statements, and more sample data *)

Definition count_if (f : Effect -> bool) (t : Trace) : nat :=
  length (filter f t).

(** [m] only appends to the trace, and appends at most [n] effects that
    satisfy [f]. *)
Definition emits_at_most {A} (f : Effect -> bool) (n : nat) (m : M A) : Prop :=
  forall t, exists new, fst (m t) = t ++ new /\ (count_if f new <= n)%nat.

Definition is_label_action (e : Effect) : bool :=
  is_label_apply e || is_label_remove e.



(** A pull request with three reviewers, one of them without write
    access. *)
Definition sample_pull : PullRequest :=
  {| number := 7; labels := [ {| name := "bug" |} ] |}.
Definition sample_reviews : list Review :=
  [review_of "alice" "APPROVED"; review_of "bob" "COMMENTED";
   review_of "alice" "CHANGES_REQUESTED"; review_of "carol" "APPROVED";
   review_of "bob" "APPROVED"].
Definition sample_permission (u : string) : string :=
  if u =? "alice" then "admin" else if u =? "bob" then "read" else "write".
Definition sample_octokit : Octokit :=
  fixed_octokit sample_pull sample_reviews sample_permission.

(** What C7 asks of the label block: each flag it returns implies its
    conditions, the two are never both [true], and with a label configured
    they are the two conjunctions of the spec. *)
Definition label_flags_exclusive
    (run_labels : Octokit -> string -> option string -> Z -> string ->
                  string -> bool -> bool -> list string -> M (bool * bool))
  : Prop :=
  forall octokit owner repo pullRequestNumber userLabel comment
         removeLabelWhenApprovalMissing isApproved labelNames t
         shouldLabelBeSet shouldLabelBeRemoved,
    snd (run_labels octokit owner repo pullRequestNumber userLabel comment
           removeLabelWhenApprovalMissing isApproved labelNames t)
    = Normal (shouldLabelBeSet, shouldLabelBeRemoved) ->
    (shouldLabelBeSet = true ->
     isApproved = true /\ includes labelNames userLabel = false)
    /\ (shouldLabelBeRemoved = true ->
        isApproved = false /\ includes labelNames userLabel = true
        /\ removeLabelWhenApprovalMissing = true)
    /\ shouldLabelBeSet && shouldLabelBeRemoved = false
    /\ (userLabel <> "not set" ->
        shouldLabelBeSet = isApproved && negb (includes labelNames userLabel)
        /\ shouldLabelBeRemoved
           = negb isApproved && includes labelNames userLabel
             && removeLabelWhenApprovalMissing).

Definition not_request (e : Effect) : bool := negb (is_request e).

(** A computation that only makes requests. *)
Definition only_requests {A} (m : M A) : Prop :=
  forall t, exists new c,
    m t = (t ++ new, c) /\ outputs new = [] /\ failures new = []
    /\ warnings new = [].

(** A pull request labelled [bug] with no review, on a
    [pull_request_review] event; the label to manage is [bug] and it is to
    be removed when the approval is missing. *)
Definition unreviewed_runtime : Runtime :=
  sample_runtime
    [("token", "secret"); ("label", "bug");
     ("remove_label_when_approval_missing", "true")]
    [("GITHUB_REPOSITORY", "o/r"); ("GITHUB_EVENT_NAME", "pull_request_review")]
    {| payload_pull_request := Some {| ref_number := Some 7%Z |} |}
    (fixed_octokit sample_pull [] sample_permission).

(** A manual dispatch with no pull request number given. *)
Definition dispatch_runtime : Runtime :=
  sample_runtime
    [("token", "secret"); ("label", "approved")]
    [("GITHUB_REPOSITORY", "o/r"); ("GITHUB_EVENT_NAME", "workflow_dispatch")]
    {| payload_pull_request := None |}
    sample_octokit.

(** A [workflow_run] event with no pull request number given. *)
Definition workflow_run_runtime : Runtime :=
  sample_runtime
    [("token", "secret"); ("label", "approved")]
    [("GITHUB_REPOSITORY", "o/r"); ("GITHUB_EVENT_NAME", "workflow_run")]
    {| payload_pull_request := None |}
    sample_octokit.

(** The sample pull request reviewed as in [sample_reviews], with no label
    configured. *)
Definition unlabelled_runtime : Runtime :=
  sample_runtime
    [("token", "secret"); ("label", "not set"); ("comment", "Thanks!")]
    [("GITHUB_REPOSITORY", "o/r"); ("GITHUB_EVENT_NAME", "pull_request_review")]
    {| payload_pull_request := Some {| ref_number := Some 7%Z |} |}
    (fixed_octokit sample_pull [review_of "carol" "APPROVED"]
       sample_permission).

(** The claim on the soft exit, for a [main] and the event names
    [soft_events] of the kind that embeds no pull request: (1) on such an
    event with no [pullRequestNumber] input the run only logs the warning;
    (2) a run that signals no failure and sets no output is such a run;
    (3) any event name outside [pull_request_review] and [soft_events] is
    fatal. *)
Definition soft_exit_claim (main : Runtime -> M unit)
    (soft_events : list string) : Prop :=
  (forall rt token repository eventName,
      getInputRequired rt "token" = inr token ->
      process_env rt "GITHUB_REPOSITORY" = Some repository ->
      process_env rt "GITHUB_EVENT_NAME" = Some eventName ->
      In eventName soft_events ->
      getInput rt "pullRequestNumber" = "" ->
      main rt [] = ([Warning missing_number_warning], Normal tt))
  /\ (forall rt,
        failures (fst (main rt [])) = [] ->
        outputs (fst (main rt [])) = [] ->
        fst (main rt []) = [Warning missing_number_warning]
        /\ exists eventName,
            In eventName soft_events
            /\ process_env rt "GITHUB_EVENT_NAME" = Some eventName)
  /\ (forall rt token repository eventName,
        getInputRequired rt "token" = inr token ->
        process_env rt "GITHUB_REPOSITORY" = Some repository ->
        process_env rt "GITHUB_EVENT_NAME" = Some eventName ->
        eventName <> "pull_request_review" ->
        ~ In eventName soft_events ->
        main rt [] =
        ([SetFailed (unsupported_event_message eventName)], Normal tt)).

(** An output other than [isApproved] whose value is [true]. *)
Definition is_flag_raised (e : Effect) : bool :=
  match e with
  | SetOutput n v => negb (n =? "isApproved") && (v =? "true")
  | _ => false
  end.

(** A label application or removal, a comment, or a raised flag. *)
Definition labeling_effect (e : Effect) : bool :=
  is_write e || is_flag_raised e.

(** ** Further predicates and sample data *)

(** [s] has no [/]. *)
Fixpoint no_slash (s : string) : bool :=
  match s with
  | EmptyString => true
  | String c s' => negb (Ascii.eqb c "/"%char) && no_slash s'
  end.

(** A runner that passes the token but defines no environment variable. *)
Definition bare_runtime : Runtime :=
  sample_runtime [("token", "secret")] []
    {| payload_pull_request := None |} sample_octokit.

(** A [pull_request_review] event whose payload embeds no pull request. *)
Definition detached_review_runtime : Runtime :=
  sample_runtime [("token", "secret"); ("pullRequestNumber", "7")]
    [("GITHUB_REPOSITORY", "o/r"); ("GITHUB_EVENT_NAME", "pull_request_review")]
    {| payload_pull_request := None |} sample_octokit.

(** A [workflow_run] event whose [pullRequestNumber] input is the sentinel
    itself. *)
Definition sentinel_number_runtime : Runtime :=
  sample_runtime [("token", "secret"); ("pullRequestNumber", "not set")]
    [("GITHUB_REPOSITORY", "o/r"); ("GITHUB_EVENT_NAME", "workflow_run")]
    {| payload_pull_request := None |} sample_octokit.

(** A [pull_request_review] event on pull request 7 with a conflicting
    [pullRequestNumber] input. *)
Definition conflicting_number_runtime : Runtime :=
  sample_runtime
    [("token", "secret"); ("label", "approved"); ("pullRequestNumber", "2")]
    [("GITHUB_REPOSITORY", "o/r"); ("GITHUB_EVENT_NAME", "pull_request_review")]
    {| payload_pull_request := Some {| ref_number := Some 7%Z |} |}
    sample_octokit.

(** The call of the first effect of a trace, when that is a request. *)
Definition first_call (t : Trace) : option Call :=
  match t with
  | Request c _ :: _ => Some c
  | _ => None
  end.


Definition is_pull_fetch (e : Effect) : bool :=
  match e with Request (GetPull _ _ _) _ => true | _ => false end.

Definition is_reviews_fetch (e : Effect) : bool :=
  match e with Request (GetPullReviews _ _ _) _ => true | _ => false end.

Definition is_warning (e : Effect) : bool :=
  match e with Warning _ => true | _ => false end.

(** The label is applied, or [isApproved] is set to [true]. *)
Definition is_approval_signal (e : Effect) : bool :=
  is_label_apply e
  || match e with
     | SetOutput n v => (n =? "isApproved") && (v =? "true")
     | _ => false
     end.

(** The sample pull request with an approval, a threshold that is no
    number, and the label [approved] to manage. *)
Definition unparsable_threshold_runtime : Runtime :=
  sample_runtime
    [("token", "secret"); ("label", "approved"); ("numOfApprovals", "two")]
    [("GITHUB_REPOSITORY", "o/r"); ("GITHUB_EVENT_NAME", "pull_request_review")]
    {| payload_pull_request := Some {| ref_number := Some 7%Z |} |}
    (fixed_octokit sample_pull [review_of "carol" "APPROVED"]
       sample_permission).

(** An approved pull request without the label, and a comment to post. *)
Definition approved_runtime : Runtime :=
  sample_runtime
    [("token", "secret"); ("label", "approved"); ("comment", "Thanks!")]
    [("GITHUB_REPOSITORY", "o/r"); ("GITHUB_EVENT_NAME", "pull_request_review")]
    {| payload_pull_request := Some {| ref_number := Some 7%Z |} |}
    (fixed_octokit sample_pull [] sample_permission).


(** * Properties *)


(** ** The object [reviewStates] *)

Section StateMap.

Implicit Types (o m : list (string * string)) (k u v st : string).

Lemma obj_get_set_same k v o : obj_get k (obj_set k v o) = Some v.
Proof.
  induction o as [|[k' v'] o IH]; simpl.
  - now rewrite String.eqb_refl.
  - destruct (k' =? k) eqn:E; simpl; rewrite E; auto.
Qed.

Lemma obj_get_set_other k k' v o :
  k' <> k -> obj_get k' (obj_set k v o) = obj_get k' o.
Proof.
  intros Hne. induction o as [|[k0 v0] o IH]; simpl.
  - apply String.eqb_neq in Hne. rewrite String.eqb_sym. now rewrite Hne.
  - destruct (k0 =? k) eqn:E; simpl.
    + apply String.eqb_eq in E. subst k0.
      assert ((k =? k') = false) as -> by (apply String.eqb_neq; congruence).
      reflexivity.
    + destruct (k0 =? k'); auto.
Qed.

Lemma obj_set_keys k v o :
  map fst (obj_set k v o) =
  if existsb (fun e => fst e =? k) o then map fst o else map fst o ++ [k].
Proof.
  induction o as [|[k' v'] o IH]; simpl; auto.
  destruct (k' =? k) eqn:E; simpl; auto.
  rewrite IH. now destruct (existsb _ o).
Qed.

Lemma obj_get_none_keys k o : obj_get k o = None <-> ~ In k (map fst o).
Proof.
  induction o as [|[k' v'] o IH]; simpl.
  - tauto.
  - destruct (k' =? k) eqn:E.
    + apply String.eqb_eq in E. split; [discriminate | tauto].
    + apply String.eqb_neq in E. tauto.
Qed.

Lemma existsb_key_in k o :
  existsb (fun e => fst e =? k) o = true <-> In k (map fst o).
Proof.
  rewrite existsb_exists, in_map_iff. split.
  - intros [e [Hin He]]. apply String.eqb_eq in He. eauto.
  - intros [e [He Hin]]. exists e. split; auto. now apply String.eqb_eq.
Qed.

Lemma obj_set_NoDup k v o :
  NoDup (map fst o) -> NoDup (map fst (obj_set k v o)).
Proof.
  intros Hnd. rewrite obj_set_keys.
  destruct (existsb _ o) eqn:E; auto.
  apply NoDup_app; auto.
  - repeat constructor. simpl. tauto.
  - intros x Hx [<-|[]].
    apply existsb_key_in in Hx. congruence.
Qed.

Lemma obj_get_in k v o :
  NoDup (map fst o) -> (In (k, v) o <-> obj_get k o = Some v).
Proof.
  induction o as [|[k' v'] o IH]; simpl; intros Hnd.
  - split; [tauto | discriminate].
  - inversion Hnd as [|? ? Hnotin Hnd']; subst.
    destruct (k' =? k) eqn:E.
    + apply String.eqb_eq in E. subst k'. split.
      * intros [Heq|Hin]; [congruence|].
        exfalso. apply Hnotin. apply in_map_iff. now exists (k, v).
      * intros [= ->]. now left.
    + apply String.eqb_neq in E. rewrite <- (IH Hnd'). split.
      * intros [Heq|Hin]; [congruence | assumption].
      * now right.
Qed.

Lemma obj_set_entries k v o e :
  In e (obj_set k v o) -> e = (k, v) \/ In e o.
Proof.
  induction o as [|[k' v'] o IH]; simpl.
  - intros [<-|[]]. now left.
  - destruct (k' =? k) eqn:E; simpl.
    + apply String.eqb_eq in E. subst k'. intros [<-|H]; auto.
    + intros [<-|H]; auto. destruct (IH H); auto.
Qed.

End StateMap.

(** ** The fold of [processReviews] *)

Section Fold.

Variables (committers : list string) (requireCommittersApproval : bool).

Let step := recordReview committers requireCommittersApproval.
Let isRecorded := recorded committers requireCommittersApproval.

Lemma recordReview_recorded m r :
  step m r =
  if isRecorded r then obj_set (login (user r)) (state r) m else m.
Proof.
  unfold step, isRecorded, recordReview, recorded, counted_state.
  destruct (_ || _); simpl; auto.
  destruct requireCommittersApproval; simpl.
  - now destruct (includes _ _).
  - reflexivity.
Qed.

Lemma recordReview_NoDup m r :
  NoDup (map fst m) -> NoDup (map fst (step m r)).
Proof.
  intros H. rewrite recordReview_recorded.
  destruct (isRecorded r); auto using obj_set_NoDup.
Qed.

Lemma fold_recordReview_NoDup reviews m :
  NoDup (map fst m) -> NoDup (map fst (fold_left step reviews m)).
Proof.
  revert m. induction reviews as [|r rs IH]; simpl; intros m H; auto.
  apply IH. now apply recordReview_NoDup.
Qed.

(** Reviews that are not recorded, or are by somebody else, leave the
    entry of [u] alone. *)
Lemma fold_recordReview_untouched u reviews m :
  (forall r, In r reviews -> isRecorded r = true -> login (user r) <> u) ->
  obj_get u (fold_left step reviews m) = obj_get u m.
Proof.
  revert m. induction reviews as [|r rs IH]; simpl; intros m H; auto.
  rewrite IH by (intros; apply H; auto).
  rewrite recordReview_recorded.
  destruct (isRecorded r) eqn:E; auto.
  apply obj_get_set_other. intros ->. now apply (H r); auto.
Qed.

Lemma fold_recordReview_app reviews1 reviews2 m :
  fold_left step (reviews1 ++ reviews2) m =
  fold_left step reviews2 (fold_left step reviews1 m).
Proof. apply fold_left_app. Qed.

Lemma fold_recordReview_latest before r after m :
  isRecorded r = true ->
  (forall r', In r' after -> isRecorded r' = true ->
              login (user r') <> login (user r)) ->
  obj_get (login (user r)) (fold_left step (before ++ r :: after) m)
  = Some (state r).
Proof.
  intros Hr Hafter.
  rewrite fold_recordReview_app. simpl.
  rewrite fold_recordReview_untouched by assumption.
  rewrite recordReview_recorded, Hr.
  apply obj_get_set_same.
Qed.

(** Dropping reviews on which the loop body does nothing does not change
    the map. *)
Lemma fold_recordReview_filter (keep : Review -> bool) reviews m :
  (forall r, keep r = false -> isRecorded r = false) ->
  fold_left step (filter keep reviews) m = fold_left step reviews m.
Proof.
  intros Hkeep. revert m.
  induction reviews as [|r rs IH]; simpl; intros m; auto.
  destruct (keep r) eqn:E; simpl.
  - apply IH.
  - rewrite IH. f_equal. now rewrite recordReview_recorded, (Hkeep r E).
Qed.

Lemma recordReview_keeps_keys m r u :
  In u (map fst m) -> In u (map fst (step m r)).
Proof.
  intros H. rewrite recordReview_recorded.
  destruct (isRecorded r); auto.
  rewrite obj_set_keys. destruct (existsb _ m); auto.
  apply in_or_app. now left.
Qed.

Lemma fold_recordReview_keeps_keys reviews m u :
  In u (map fst m) -> In u (map fst (fold_left step reviews m)).
Proof.
  revert m. induction reviews as [|r rs IH]; simpl; intros m H; auto.
  apply IH. now apply recordReview_keeps_keys.
Qed.

Lemma fold_recordReview_counted_values reviews m :
  (forall e, In e m -> snd e = "APPROVED" \/ snd e = "CHANGES_REQUESTED") ->
  forall e, In e (fold_left step reviews m) ->
            snd e = "APPROVED" \/ snd e = "CHANGES_REQUESTED".
Proof.
  revert m. induction reviews as [|r rs IH]; simpl; intros m H; auto.
  apply IH. intros e. rewrite recordReview_recorded.
  destruct (isRecorded r) eqn:E; auto.
  intros [->|Hin]%obj_set_entries; auto. simpl.
  unfold isRecorded, recorded, counted_state in E.
  apply andb_prop in E. destruct E as [E _].
  apply orb_prop in E. destruct E as [E|E]; apply String.eqb_eq in E; auto.
Qed.

End Fold.

(** ** The decision *)

Lemma partitionStep_lengths m : forall approved changesRequested,
  let '(a, c) := fold_left partitionStep m (approved, changesRequested) in
  length a = (length approved + count_state "APPROVED" m)%nat /\
  length c = (length changesRequested + count_state "CHANGES_REQUESTED" m)%nat.
Proof.
  unfold count_state.
  induction m as [|[u st] m IH]; intros a c; simpl.
  - split; lia.
  - destruct (st =? "APPROVED") eqn:EA.
    + apply String.eqb_eq in EA. subst st. simpl.
      specialize (IH (a ++ [u]) c).
      destruct (fold_left _ _ _) as [a' c'].
      rewrite length_app in IH. simpl in *. lia.
    + destruct (st =? "CHANGES_REQUESTED") eqn:EC.
      * specialize (IH a (c ++ [u])).
        destruct (fold_left _ _ _) as [a' c'].
        rewrite length_app in IH. simpl in *. lia.
      * specialize (IH a c).
        destruct (fold_left _ _ _) as [a' c']. simpl in *. lia.
Qed.

Lemma decide_counts m numOfApprovals :
  decide m numOfApprovals =
  length_ge (count_state "APPROVED" m) numOfApprovals
  && (count_state "CHANGES_REQUESTED" m =? 0)%nat.
Proof.
  unfold decide.
  pose proof (partitionStep_lengths m [] []) as H.
  destruct (fold_left _ _ _) as [a c]. simpl in H. destruct H as [-> ->].
  destruct (count_state "CHANGES_REQUESTED" m); simpl.
  - now rewrite andb_true_r; destruct (length_ge _ _).
  - now rewrite andb_false_r.
Qed.

Lemma count_state_zero st m :
  count_state st m = 0%nat <-> forall u, ~ In (u, st) m.
Proof.
  unfold count_state. split.
  - intros H u Hin.
    assert (In (u, st) (filter (fun e => snd e =? st) m)) as Hf
      by (apply filter_In; split; auto; apply String.eqb_refl).
    destruct (filter _ m); [inversion Hf | discriminate].
  - intros H. destruct (filter _ m) as [|[u s] l] eqn:E; auto.
    assert (In (u, s) (filter (fun e => snd e =? st) m)) as Hf
      by (rewrite E; now left).
    apply filter_In in Hf. destruct Hf as [Hin Hs]. simpl in Hs.
    apply String.eqb_eq in Hs. subst s. now elim (H u).
Qed.

(** ** The claims on [processReviews] *)

(** C1. For every Reviewer State Map and every positive threshold, the
    decision is [true] exactly when at least [threshold] entries are APPROVED
    and no entry is CHANGES_REQUESTED; one CHANGES_REQUESTED entry forces
    [false]; and [processReviews] returns this decision on the map it folds
    from the reviews. *)
Theorem approved_iff_threshold_met_and_no_veto :
  forall (m : list (string * string)) (threshold : Z),
    (0 < threshold)%Z ->
    (decide m (Fin threshold) = true <->
       (threshold <= Z.of_nat (count_state "APPROVED" m))%Z /\
       count_state "CHANGES_REQUESTED" m = 0%nat)
    /\ (forall u, In (u, "CHANGES_REQUESTED") m ->
                   decide m (Fin threshold) = false)
    /\ (forall reviews committers requireCommittersApproval,
          reviewStates reviews committers requireCommittersApproval = m ->
          processReviews reviews committers requireCommittersApproval
            (Fin threshold) = decide m (Fin threshold)).
Proof.
  intros m threshold _. rewrite decide_counts. simpl.
  rewrite andb_true_iff, Z.leb_le, Nat.eqb_eq.
  split; [tauto|]. split.
  - intros u Hin. apply andb_false_intro2. apply Nat.eqb_neq.
    intros H0. now apply (proj1 (count_state_zero _ _) H0 u).
  - intros reviews committers req <-. unfold processReviews.
    now rewrite decide_counts.
Qed.

Lemma approved_iff_threshold_met_and_no_veto_witness :
  decide [("alice", "APPROVED"); ("carol", "APPROVED");
          ("bob", "CHANGES_REQUESTED")] (Fin 1) = false.
Proof.
  apply (proj1 (proj2 (approved_iff_threshold_met_and_no_veto
           [("alice", "APPROVED"); ("carol", "APPROVED");
            ("bob", "CHANGES_REQUESTED")] 1 eq_refl)) "bob").
  simpl. auto.
Defined.

(** C3. The Reviewer State Map always holds one entry per identity; the
    entry of a reviewer is exactly the state of that reviewer's last recorded
    review in the sequence; APPROVED then CHANGES_REQUESTED leaves
    CHANGES_REQUESTED, and CHANGES_REQUESTED then APPROVED leaves APPROVED. *)
Theorem latest_recorded_state_wins :
  (forall reviews committers requireCommittersApproval,
      NoDup (map fst (reviewStates reviews committers
                        requireCommittersApproval)))
  /\ (forall reviews committers requireCommittersApproval before r after,
        reviews = before ++ r :: after ->
        recorded committers requireCommittersApproval r = true ->
        (forall r', In r' after ->
                    recorded committers requireCommittersApproval r' = true ->
                    login (user r') <> login (user r)) ->
        forall st,
          In (login (user r), st)
             (reviewStates reviews committers requireCommittersApproval)
          <-> st = state r)
  /\ (forall committers requireCommittersApproval u,
        (requireCommittersApproval && includes committers u)
        || negb requireCommittersApproval = true ->
        reviewStates
          [review_of u "APPROVED"; review_of u "CHANGES_REQUESTED"]
          committers requireCommittersApproval = [(u, "CHANGES_REQUESTED")]
        /\ reviewStates
             [review_of u "CHANGES_REQUESTED"; review_of u "APPROVED"]
             committers requireCommittersApproval = [(u, "APPROVED")]).
Proof.
  assert (forall reviews committers req,
             NoDup (map fst (reviewStates reviews committers req))) as Hnd
    by (intros; apply fold_recordReview_NoDup; constructor).
  split; [exact Hnd|]. split.
  - intros reviews committers req before r after Hsplit Hr Hafter st.
    rewrite (obj_get_in _ _ _ (Hnd reviews committers req)).
    unfold reviewStates. rewrite Hsplit.
    rewrite fold_recordReview_latest by assumption.
    split; [now intros [= <-] | now intros ->].
  - intros committers req u Hu.
    unfold reviewStates. simpl. rewrite !recordReview_recorded.
    unfold recorded. simpl. rewrite Hu. simpl.
    rewrite ?Hu. simpl. now rewrite String.eqb_refl.
Qed.

Lemma latest_recorded_state_wins_witness :
  In ("alice", "CHANGES_REQUESTED")
     (reviewStates
        [review_of "alice" "APPROVED"; review_of "bob" "APPROVED";
         review_of "alice" "CHANGES_REQUESTED"; review_of "bob" "COMMENTED";
         review_of "carol" "APPROVED"]
        ["alice"; "carol"] true).
Proof.
  apply (proj1 (proj2 latest_recorded_state_wins)
           [review_of "alice" "APPROVED"; review_of "bob" "APPROVED";
            review_of "alice" "CHANGES_REQUESTED"; review_of "bob" "COMMENTED";
            review_of "carol" "APPROVED"]
           ["alice"; "carol"] true
           [review_of "alice" "APPROVED"; review_of "bob" "APPROVED"]
           (review_of "alice" "CHANGES_REQUESTED")
           [review_of "bob" "COMMENTED"; review_of "carol" "APPROVED"]).
  - reflexivity.
  - reflexivity.
  - simpl. intros r' [<-|[<-|[]]]; simpl; discriminate.
  - reflexivity.
Defined.

(** C4. With [requireCommittersApproval] set, a review whose author is not
    in the Committer Set is never written to the state map, so it adds to
    neither count: the map, and with it the decision, is that of the
    sequence without those reviews. With the flag unset every APPROVED or
    CHANGES_REQUESTED review is written, whoever its author is. *)
Theorem non_committer_reviews_are_dropped :
  forall (reviews : list Review) (committers : list string),
    (forall r m, includes committers (login (user r)) = false ->
                 recordReview committers true m r = m)
    /\ (forall u st, includes committers u = false ->
                     ~ In (u, st) (reviewStates reviews committers true))
    /\ (let kept :=
          filter (fun r => includes committers (login (user r))) reviews in
        reviewStates reviews committers true
        = reviewStates kept committers true
        /\ forall numOfApprovals,
            processReviews reviews committers true numOfApprovals
            = processReviews kept committers true numOfApprovals)
    /\ (forall r m, counted_state r = true ->
                    recordReview committers false m r
                    = obj_set (login (user r)) (state r) m)
    /\ (forall r, In r reviews -> counted_state r = true ->
                  exists st,
                    In (login (user r), st)
                       (reviewStates reviews committers false)
                    /\ (st = "APPROVED" \/ st = "CHANGES_REQUESTED")).
Proof.
  intros reviews committers.
  assert (forall r, includes committers (login (user r)) = false ->
                    recorded committers true r = false) as Hdrop.
  { intros r H. unfold recorded. simpl. rewrite H.
    now rewrite orb_false_r, andb_false_r. }
  split; [|split; [|split; [|split]]].
  - intros r m H. now rewrite recordReview_recorded, (Hdrop r H).
  - intros u st Hu Hin.
    assert (In u (map fst (reviewStates reviews committers true))) as Hkey
      by (apply in_map_iff; now exists (u, st)).
    revert Hkey. apply obj_get_none_keys.
    unfold reviewStates. rewrite fold_recordReview_untouched; auto.
    intros r _ Hr Heq. subst u. now rewrite (Hdrop r Hu) in Hr.
  - assert (reviewStates reviews committers true
            = reviewStates
                (filter (fun r => includes committers (login (user r)))
                   reviews) committers true) as Heq
      by (unfold reviewStates; now rewrite fold_recordReview_filter).
    split; [exact Heq|]. intros n. unfold processReviews. now rewrite <- Heq.
  - intros r m H. rewrite recordReview_recorded. unfold recorded.
    now rewrite H.
  - intros r Hin Hc.
    destruct (in_split _ _ Hin) as [before [after ->]].
    assert (In (login (user r))
              (map fst (reviewStates (before ++ r :: after) committers false)))
      as Hkey.
    { unfold reviewStates. rewrite fold_recordReview_app. simpl.
      apply fold_recordReview_keeps_keys.
      rewrite recordReview_recorded. unfold recorded. rewrite Hc. simpl.
      destruct (in_dec string_dec (login (user r))
                  (map fst (obj_set (login (user r)) (state r)
                              (fold_left (recordReview committers false)
                                 before [])))) as [Hk|Hk]; auto.
      apply obj_get_none_keys in Hk. rewrite obj_get_set_same in Hk.
      discriminate. }
    apply in_map_iff in Hkey. destruct Hkey as [[u st] [Hu He]].
    simpl in Hu. subst u. exists st. split; auto.
    apply (fold_recordReview_counted_values committers false
             (before ++ r :: after) [] (fun e H => match H with end) _ He).
Qed.

Lemma non_committer_reviews_are_dropped_witness :
  recordReview ["alice"] true [("alice", "APPROVED")]
    (review_of "mallory" "APPROVED")
  = [("alice", "APPROVED")].
Proof.
  apply (proj1 (non_committer_reviews_are_dropped
                  [review_of "alice" "APPROVED"; review_of "mallory" "APPROVED"]
                  ["alice"])).
  reflexivity.
Defined.

(** C10. With a threshold that is zero or negative, [processReviews] returns
    [true] whenever the state map has no CHANGES_REQUESTED entry, and so on
    the empty review sequence. *)
Theorem nonpositive_threshold_approves_unless_vetoed :
  forall (threshold : Z),
    (threshold <= 0)%Z ->
    (forall reviews committers requireCommittersApproval,
        (forall u, ~ In (u, "CHANGES_REQUESTED")
                       (reviewStates reviews committers
                          requireCommittersApproval)) ->
        processReviews reviews committers requireCommittersApproval
          (Fin threshold) = true)
    /\ (forall committers requireCommittersApproval,
          processReviews [] committers requireCommittersApproval
            (Fin threshold) = true).
Proof.
  intros threshold Hle.
  assert (forall reviews committers req,
             (forall u, ~ In (u, "CHANGES_REQUESTED")
                            (reviewStates reviews committers req)) ->
             processReviews reviews committers req (Fin threshold) = true)
    as Hgen.
  { intros reviews committers req Hno. unfold processReviews.
    rewrite decide_counts. apply andb_true_intro. split.
    - simpl. apply Z.leb_le. lia.
    - apply Nat.eqb_eq. now apply count_state_zero. }
  split; [exact Hgen|].
  intros committers req. apply Hgen. intros u [].
Qed.

Lemma nonpositive_threshold_approves_unless_vetoed_witness :
  processReviews [] ["alice"] true (Fin (-2)) = true.
Proof.
  apply (proj2 (nonpositive_threshold_approves_unless_vetoed (-2)
                  ltac:(discriminate))).
Defined.

(** ** Effects appended by a computation *)

Lemma count_if_app f t1 t2 :
  count_if f (t1 ++ t2) = (count_if f t1 + count_if f t2)%nat.
Proof. unfold count_if. now rewrite filter_app, length_app. Qed.

Section Emits.

Context {A B : Type} (f : Effect -> bool).

Lemma emits_ret n (a : A) : emits_at_most f n (ret a).
Proof.
  intros t. exists []. simpl. rewrite app_nil_r. split; auto.
  unfold count_if. simpl. lia.
Qed.

Lemma emits_throw n e : emits_at_most f n (@throw A e).
Proof.
  intros t. exists []. simpl. rewrite app_nil_r. split; auto.
  unfold count_if. simpl. lia.
Qed.

Lemma emits_emit_0 n e : f e = false -> emits_at_most f n (emit e).
Proof.
  intros H t. exists [e]. split; auto. unfold count_if. simpl. rewrite H.
  simpl. lia.
Qed.

Lemma emits_emit_1 n e : emits_at_most f (S n) (emit e).
Proof.
  intros t. exists [e]. split; auto. unfold count_if. simpl.
  destruct (f e); simpl; lia.
Qed.

Lemma emits_request_0 n (respond : Trace -> Call -> JsError + A) wrap c :
  (forall r, f (Request c r) = false) ->
  emits_at_most f n (request respond wrap c).
Proof.
  intros H t. unfold request.
  destruct (respond t c); eexists; (split; [reflexivity|]);
    unfold count_if; simpl; rewrite H; simpl; lia.
Qed.

Lemma emits_request_1 n (respond : Trace -> Call -> JsError + A) wrap c :
  emits_at_most f (S n) (request respond wrap c).
Proof.
  intros t. unfold request.
  destruct (respond t c); eexists; (split; [reflexivity|]);
    unfold count_if; simpl; destruct (f _); simpl; lia.
Qed.

Lemma emits_bind n1 n2 (m : M A) (k : A -> M B) :
  emits_at_most f n1 m ->
  (forall a, emits_at_most f n2 (k a)) ->
  emits_at_most f (n1 + n2) (bind m k).
Proof.
  intros Hm Hk t. unfold bind.
  destruct (Hm t) as [new1 [E1 C1]].
  destruct (m t) as [t1 [a|e]]; simpl in E1; subst t1.
  - destruct (Hk a (t ++ new1)) as [new2 [E2 C2]].
    exists (new1 ++ new2). rewrite E2, app_assoc, count_if_app.
    split; auto. lia.
  - exists new1. split; auto. lia.
Qed.

Lemma emits_bind_throw n e (k : A -> M B) :
  emits_at_most f n (bind (throw e) k).
Proof.
  intros t. exists []. simpl. rewrite app_nil_r. split; auto.
  unfold count_if. simpl. lia.
Qed.

Lemma emits_try_catch n1 n2 (body : M A) (handler : JsError -> M A) :
  emits_at_most f n1 body ->
  (forall e, emits_at_most f n2 (handler e)) ->
  emits_at_most f (n1 + n2) (try_catch body handler).
Proof.
  intros Hm Hk t. unfold try_catch.
  destruct (Hm t) as [new1 [E1 C1]].
  destruct (body t) as [t1 [a|e]]; simpl in E1; subst t1.
  - exists new1. split; auto. lia.
  - destruct (Hk e (t ++ new1)) as [new2 [E2 C2]].
    exists (new1 ++ new2). rewrite E2, app_assoc, count_if_app.
    split; auto. lia.
Qed.

End Emits.

Lemma emits_checkReviewers f n octokit owner repo reviewers :
  (forall u r, f (Request (GetPermission owner repo u) r) = false) ->
  forall checked committers,
    emits_at_most f n
      (checkReviewers octokit owner repo reviewers checked committers).
Proof.
  intros Hf. induction reviewers as [|reviewer rest IH]; intros; simpl.
  - apply emits_ret.
  - destruct (negb _); auto.
    apply (emits_bind f 0 n); auto.
    apply emits_request_0. auto.
Qed.

(** Proves [emits_at_most f n m] for straight-line code: the budget [n] is
    given either to the first computation of a sequence or to its rest;
    [leaf] is tried first on every computation. *)
Ltac emits_by leaf :=
  cbv beta iota zeta;
  first
    [ solve [leaf]
    | lazymatch goal with
      | |- emits_at_most _ _ (bind (throw _) _) => apply emits_bind_throw
      | |- emits_at_most _ _ (bind (IndexJs.unbound _) _) =>
          apply emits_bind_throw
      | |- emits_at_most ?f 0 (bind _ _) =>
          apply (emits_bind f 0 0); [emits_by leaf | intros; emits_by leaf]
      | |- emits_at_most ?f 0 (try_catch _ _) =>
          apply (emits_try_catch f 0 0);
          [emits_by leaf | intros; emits_by leaf]
      | |- emits_at_most ?f ?n (bind _ _) =>
          first [ apply (emits_bind f 0 n);
                  [solve [emits_by leaf] | intros; emits_by leaf]
                | apply (emits_bind f n 0);
                  [emits_by leaf | intros; solve [emits_by leaf]] ]
      | |- emits_at_most ?f ?n (try_catch _ _) =>
          first [ apply (emits_try_catch f 0 n);
                  [solve [emits_by leaf] | intros; emits_by leaf]
                | apply (emits_try_catch f n 0);
                  [emits_by leaf | intros; solve [emits_by leaf]] ]
      | |- emits_at_most _ _ (ret _) => apply emits_ret
      | |- emits_at_most _ _ (throw _) => apply emits_throw
      | |- emits_at_most _ _ (IndexJs.unbound _) => apply emits_throw
      | |- emits_at_most _ _ (request _ _ _) =>
          first [ apply emits_request_0; intros; reflexivity
                | apply emits_request_1 ]
      | |- emits_at_most _ _ (emit _) =>
          first [ apply emits_emit_0; reflexivity | apply emits_emit_1 ]
      | |- emits_at_most _ _ (checkReviewers _ _ _ _ _ _) =>
          apply emits_checkReviewers; intros; reflexivity
      | |- emits_at_most _ _ (getRequiredEnv _ _) =>
          unfold getRequiredEnv; emits_by leaf
      | |- emits_at_most _ _ (setLabel _ _ _ _ _) =>
          unfold setLabel; emits_by leaf
      | |- emits_at_most _ _ (removeLabel _ _ _ _ _) =>
          unfold removeLabel; emits_by leaf
      | |- emits_at_most _ _ (Part000.addComment _ _ _ _ _) =>
          unfold Part000.addComment; emits_by leaf
      | |- emits_at_most _ _ (verboseOutput _ _) =>
          unfold verboseOutput, setOutput; emits_by leaf
      | |- emits_at_most _ _ (setFailed _) => unfold setFailed; emits_by leaf
      | |- emits_at_most _ _ (warning _) => unfold warning; emits_by leaf
      | |- emits_at_most _ _ (Part000.getReviews _ _ _ _ _) =>
          unfold Part000.getReviews; emits_by leaf
      | |- emits_at_most _ _ (IndexJs.getReviews _ _ _ _ _) =>
          unfold IndexJs.getReviews; emits_by leaf
      | |- emits_at_most _ _ (Part000.resolve_number _ _ _) =>
          unfold Part000.resolve_number; emits_by leaf
      | |- emits_at_most _ _ (IndexJs.resolve_number _ _ _) =>
          unfold IndexJs.resolve_number; emits_by leaf
      | |- emits_at_most _ _ (Part000.run_labels _ _ _ _ _ _ _ _ _) =>
          unfold Part000.run_labels; emits_by leaf
      | |- emits_at_most _ _ (IndexJs.run_labels _ _ _ _ _ _ _ _ _) =>
          unfold IndexJs.run_labels; emits_by leaf
      | |- emits_at_most _ _ (Part000.run _) =>
          unfold Part000.run; emits_by leaf
      | |- emits_at_most _ _ (IndexJs.run _) =>
          unfold IndexJs.run; emits_by leaf
      | |- emits_at_most _ _ (Part000.main _) =>
          unfold Part000.main; emits_by leaf
      | |- emits_at_most _ _ (IndexJs.main _) =>
          unfold IndexJs.main; emits_by leaf
      | |- emits_at_most _ _ (match ?x with _ => _ end) =>
          destruct x; emits_by leaf
      end ].

Ltac emits := emits_by fail.

(** ** The label block of [run] *)

Lemma main_one_label_action rt :
  emits_at_most is_label_action 1 (Part000.main rt)
  /\ emits_at_most is_label_action 1 (IndexJs.main rt).
Proof. split; emits. Qed.

(** ** The permission loop *)


Lemma lookups_app t1 t2 : lookups (t1 ++ t2) = lookups t1 ++ lookups t2.
Proof.
  induction t1 as [|e t1 IH]; simpl; auto.
  destruct e as [[] r| | |]; simpl; auto. now rewrite IH.
Qed.






(** C2. On every non-empty flat review list [getReviews] of [src/index.js]
    throws a TypeError at [reviews.data.map], whatever the flag, where the
    same function of [src/unnamed/part_000] returns the list: the claim
    holds of the second file only. *)
Theorem index_js_getReviews_throws_on_flat_reviews :
  forall octokit owner repo pullRequestNumber requireCommittersApproval t
         reviews,
    respond_reviews octokit t (GetPullReviews owner repo pullRequestNumber)
    = inr reviews ->
    reviews <> [] ->
    IndexJs.getReviews octokit owner repo pullRequestNumber
      requireCommittersApproval t
    = (t ++ [Request (GetPullReviews owner repo pullRequestNumber)
               (ReviewsData reviews)],
       Throw (TypeError "Cannot read properties of undefined (reading 'map')"))
    /\ Part000.getReviews octokit owner repo pullRequestNumber false t
       = (t ++ [Request (GetPullReviews owner repo pullRequestNumber)
                  (ReviewsData reviews)],
          Normal (reviews, [])).
Proof.
  intros octokit owner repo n req t reviews Hresp Hne.
  unfold IndexJs.getReviews, Part000.getReviews, bind, request.
  rewrite Hresp. destruct reviews as [|r reviews]; [congruence|].
  split; reflexivity.
Qed.

Lemma index_js_getReviews_throws_on_flat_reviews_witness :
  IndexJs.getReviews sample_octokit "o" (Some "r") 7 true []
  = ([Request (GetPullReviews "o" (Some "r") 7) (ReviewsData sample_reviews)],
     Throw (TypeError "Cannot read properties of undefined (reading 'map')")).
Proof.
  apply (proj1 (index_js_getReviews_throws_on_flat_reviews
                  sample_octokit "o" (Some "r") 7%Z true [] sample_reviews
                  eq_refl ltac:(discriminate))).
Defined.

(** ** The label block and the outputs *)

Lemma bind_ret_value {A B} (m : M A) (v : B) t x :
  snd (bind m (fun _ => ret v) t) = Normal x -> x = v.
Proof.
  unfold bind, ret. destruct (m t) as [t' [a|e]]; simpl; congruence.
Qed.

Lemma Part000_label_flags_exclusive : label_flags_exclusive Part000.run_labels.
Proof.
  intros octokit owner repo n userLabel comment rm isApproved labelNames t
         s r.
  unfold Part000.run_labels. destruct (userLabel =? "not set") eqn:E; simpl.
  - intros [= <- <-]. apply String.eqb_eq in E.
    repeat split; try discriminate; congruence.
  - intros H. apply bind_ret_value in H. inversion H; subst.
    destruct isApproved, (includes labelNames userLabel), rm; simpl;
      repeat split; auto; discriminate.
Qed.

Lemma IndexJs_label_flags_exclusive : label_flags_exclusive IndexJs.run_labels.
Proof.
  intros octokit owner repo n userLabel comment rm isApproved labelNames t
         s r.
  unfold IndexJs.run_labels. destruct (userLabel =? "not set") eqn:E; simpl.
  - intros [= <- <-]. apply String.eqb_eq in E.
    repeat split; try discriminate; congruence.
  - intros H. apply bind_ret_value in H. inversion H; subst.
    destruct isApproved, (includes labelNames userLabel), rm; simpl;
      repeat split; auto; discriminate.
Qed.

(** C7. In both files the two flags are never both [true]: the first needs
    the approval and the label absent, the second needs no approval, the
    label present and the remove flag; and a run requests at most one label
    application or removal. *)
Theorem label_flags_mutually_exclusive :
  label_flags_exclusive Part000.run_labels
  /\ label_flags_exclusive IndexJs.run_labels
  /\ (forall rt,
        (count_if is_label_action (fst (Part000.main rt [])) <= 1)%nat
        /\ (count_if is_label_action (fst (IndexJs.main rt [])) <= 1)%nat).
Proof.
  split; [exact Part000_label_flags_exclusive|].
  split; [exact IndexJs_label_flags_exclusive|].
  intros rt. destruct (main_one_label_action rt) as [H1 H2].
  destruct (H1 []) as [new1 [-> C1]]. destruct (H2 []) as [new2 [-> C2]].
  now split.
Qed.

Lemma label_flags_mutually_exclusive_witness :
  (true = true -> true = true /\ includes ["bug"] "approved" = false)
  /\ (false = true ->
      true = false /\ includes ["bug"] "approved" = true /\ true = true)
  /\ true && false = false
  /\ ("approved" <> "not set" ->
      true = true && negb (includes ["bug"] "approved")
      /\ false = negb true && includes ["bug"] "approved" && true).
Proof.
  exact (proj1 label_flags_mutually_exclusive sample_octokit "o" (Some "r")
           7%Z "approved" "" true true ["bug"] [] true false eq_refl).
Defined.

(** ** Whole runs *)

Lemma outputs_app t1 t2 : outputs (t1 ++ t2) = outputs t1 ++ outputs t2.
Proof.
  induction t1 as [|e t1 IH]; simpl; auto. destruct e; simpl; now rewrite ?IH.
Qed.

Lemma failures_app t1 t2 : failures (t1 ++ t2) = failures t1 ++ failures t2.
Proof.
  induction t1 as [|e t1 IH]; simpl; auto. destruct e; simpl; now rewrite ?IH.
Qed.

Lemma warnings_app t1 t2 : warnings (t1 ++ t2) = warnings t1 ++ warnings t2.
Proof.
  induction t1 as [|e t1 IH]; simpl; auto. destruct e; simpl; now rewrite ?IH.
Qed.

Lemma requests_silent t :
  count_if not_request t = 0%nat ->
  outputs t = [] /\ failures t = [] /\ warnings t = [].
Proof.
  unfold count_if. induction t as [|e t IH]; simpl; auto.
  destruct e; simpl; auto; discriminate.
Qed.

Lemma quiet_only_requests {A} (m : M A) :
  emits_at_most not_request 0 m -> only_requests m.
Proof.
  intros H t. destruct (H t) as [new [E C]].
  exists new, (snd (m t)). split.
  - rewrite <- E. now destruct (m t).
  - apply requests_silent. lia.
Qed.

Lemma Part000_getReviews_requests o ow re n req :
  only_requests (Part000.getReviews o ow re n req).
Proof. apply quiet_only_requests. emits. Qed.

Lemma IndexJs_getReviews_requests o ow re n req :
  only_requests (IndexJs.getReviews o ow re n req).
Proof. apply quiet_only_requests. emits. Qed.

Lemma Part000_run_labels_requests o ow re n l c rm a ls :
  only_requests (Part000.run_labels o ow re n l c rm a ls).
Proof. apply quiet_only_requests. emits. Qed.

Lemma IndexJs_run_labels_requests o ow re n l c rm a ls :
  only_requests (IndexJs.run_labels o ow re n l c rm a ls).
Proof. apply quiet_only_requests. emits. Qed.

(** Opens the next step of an unfolded [main]: the calls of [getReviews]
    and [run_labels] by their effect summaries, the tests of [run] by
    cases. *)
Ltac open_run :=
  cbv beta iota zeta;
  match goal with
  | |- context [Part000.getReviews ?a ?b ?c ?d ?e ?t] =>
      let E := fresh "E" in
      destruct (Part000_getReviews_requests a b c d e t)
        as (?new & ?c & E & ?Ho & ?Hf & ?Hw); rewrite E; clear E
  | |- context [IndexJs.getReviews ?a ?b ?c ?d ?e ?t] =>
      let E := fresh "E" in
      destruct (IndexJs_getReviews_requests a b c d e t)
        as (?new & ?c & E & ?Ho & ?Hf & ?Hw); rewrite E; clear E
  | |- context [Part000.run_labels ?a ?b ?c ?d ?e ?f ?g ?h ?i ?t] =>
      let E := fresh "E" in
      destruct (Part000_run_labels_requests a b c d e f g h i t)
        as (?new & ?c & E & ?Ho & ?Hf & ?Hw); rewrite E; clear E
  | |- context [IndexJs.run_labels ?a ?b ?c ?d ?e ?f ?g ?h ?i ?t] =>
      let E := fresh "E" in
      destruct (IndexJs_run_labels_requests a b c d e f g h i t)
        as (?new & ?c & E & ?Ho & ?Hf & ?Hw); rewrite E; clear E
  | |- context [match getInputRequired ?r ?n with _ => _ end] =>
      destruct (getInputRequired r n)
  | |- context [match process_env ?r ?k with _ => _ end] =>
      destruct (process_env r k) eqn:?
  | |- context [split_repository ?x] => destruct (split_repository x)
  | |- context [if ?a =? ?b then _ else _] => destruct (a =? b) eqn:?
  | |- context [if ?a || ?b then _ else _] => destruct (a || b) eqn:?
  | |- context [match payload_pull_request ?c with _ => _ end] =>
      destruct (payload_pull_request c)
  | |- context [match ref_number ?c with _ => _ end] =>
      destruct (ref_number c)
  | |- context [match respond_pull ?o ?t ?c with _ => _ end] =>
      destruct (respond_pull o t c)
  | |- context [match ?c with Normal _ => _ | Throw _ => _ end] =>
      is_var c; destruct c
  | |- context [let (_, _) := ?p in _] => is_var p; destruct p
  end.

Ltac observe_trace :=
  cbv beta iota zeta; simpl fst; simpl snd; (split; [reflexivity|]);
  repeat (simpl; rewrite ?outputs_app, ?failures_app, ?warnings_app);
  repeat match goal with
         | H : outputs _ = [] |- _ => rewrite H; clear H
         | H : failures _ = [] |- _ => rewrite H; clear H
         | H : warnings _ = [] |- _ => rewrite H; clear H
         end;
  simpl.

(** Every run of [src/unnamed/part_000] ends in one of three ways. *)
Lemma Part000_main_cases rt :
  let t := fst (Part000.main rt []) in
  snd (Part000.main rt []) = Normal tt
  /\ ((exists m, failures t = [m] /\ outputs t = [] /\ warnings t = [])
      \/ (t = [Warning missing_number_warning]
          /\ process_env rt "GITHUB_EVENT_NAME" = Some "workflow_run"
          /\ or_default (getInput rt "pullRequestNumber") "not set" = "not set")
      \/ (exists a s r,
            outputs t = [("isApproved", String_bool a);
                         ("shouldLabelBeSet", String_bool s);
                         ("shouldLabelBeRemoved", String_bool r)]
            /\ failures t = [] /\ warnings t = [])).
Proof.
  unfold Part000.main, Part000.run, Part000.resolve_number, try_catch, bind,
    getRequiredEnv, request, throw, ret, setFailed, warning, verboseOutput,
    setOutput, emit.
  repeat open_run.
  all: observe_trace.
  all: try (left; eexists; repeat split; reflexivity).
  all: try (right; right; do 3 eexists; repeat split; reflexivity).
  all: repeat match goal with
              | H : (_ =? _) = true |- _ => apply String.eqb_eq in H
              end.
  all: right; left; repeat split; congruence.
Qed.

(** Every run of [src/index.js] ends in one of three ways; none sets the
    three outputs. *)
Lemma IndexJs_main_cases rt :
  let t := fst (IndexJs.main rt []) in
  snd (IndexJs.main rt []) = Normal tt
  /\ ((exists m, failures t = [m] /\ outputs t = [] /\ warnings t = [])
      \/ (t = [Warning missing_number_warning]
          /\ (process_env rt "GITHUB_EVENT_NAME" = Some "workflow_run"
              \/ process_env rt "GITHUB_EVENT_NAME" = Some "workflow_dispatch")
          /\ or_default (getInput rt "pullRequestNumber") "not set" = "not set")
      \/ (exists a,
            outputs t = [("isApproved", String_bool a)]
            /\ failures t = ["isLabelShouldBeSet is not defined"]
            /\ warnings t = [])).
Proof.
  unfold IndexJs.main, IndexJs.run, IndexJs.resolve_number, IndexJs.unbound,
    try_catch, bind, getRequiredEnv, request, throw, ret, setFailed, warning,
    verboseOutput, setOutput, emit.
  repeat open_run.
  all: observe_trace.
  all: try (left; eexists; repeat split; reflexivity).
  all: try (right; right; eexists; repeat split; reflexivity).
  all: repeat match goal with
              | H : (_ =? _) = true |- _ => apply String.eqb_eq in H
              | H : (_ || _) = true |- _ => apply orb_prop in H; destruct H
              end.
  all: right; left; repeat split; try congruence.
  all: subst; auto.
Qed.

(** The run of [src/index.js] on the unreviewed pull request: the label is
    removed, [isApproved] is set, then the undeclared identifier stops the
    run and the failure is signalled. *)
Example index_js_run_stops_after_isApproved :
  IndexJs.main unreviewed_runtime [] =
  ([Request (GetPull "o" (Some "r") (Fin 7)) (PullData sample_pull);
    Request (GetPullReviews "o" (Some "r") 7) (ReviewsData []);
    Request (DeleteLabel "o" (Some "r") 7 "bug") NoData;
    SetOutput "isApproved" "false";
    SetFailed "isLabelShouldBeSet is not defined"],
   Normal tt).
Proof. reflexivity. Qed.

Example part_000_run_sets_three_outputs :
  Part000.main unreviewed_runtime [] =
  ([Request (GetPull "o" (Some "r") (Fin 7)) (PullData sample_pull);
    Request (GetPullReviews "o" (Some "r") 7) (ReviewsData []);
    Request (DeleteLabel "o" (Some "r") 7 "bug") NoData;
    SetOutput "isApproved" "false";
    SetOutput "shouldLabelBeSet" "false";
    SetOutput "shouldLabelBeRemoved" "true"],
   Normal tt).
Proof. reflexivity. Qed.

(** C5. A run of [src/index.js] never sets three outputs: it sets none, or
    it sets [isApproved] alone and then signals the failure of the
    undeclared identifier [isLabelShouldBeSet]. A run of
    [src/unnamed/part_000] that ends without failure and without the
    warning sets exactly [isApproved], [shouldLabelBeSet] and
    [shouldLabelBeRemoved], each the text of a boolean. *)
Theorem three_outputs_only_in_part_000 :
  (forall rt,
      outputs (fst (IndexJs.main rt [])) = []
      \/ exists a,
          outputs (fst (IndexJs.main rt [])) = [("isApproved", String_bool a)]
          /\ failures (fst (IndexJs.main rt []))
             = ["isLabelShouldBeSet is not defined"])
  /\ (forall rt,
        failures (fst (Part000.main rt [])) = [] ->
        warnings (fst (Part000.main rt [])) = [] ->
        exists a s r,
          outputs (fst (Part000.main rt []))
          = [("isApproved", String_bool a);
             ("shouldLabelBeSet", String_bool s);
             ("shouldLabelBeRemoved", String_bool r)]).
Proof.
  split; intros rt.
  - destruct (IndexJs_main_cases rt) as [_ [[m [_ [H _]]]|[[H _]|[a [H1 [H2 _]]]]]].
    + now left.
    + left. now rewrite H.
    + right. now exists a.
  - intros Hf Hw.
    destruct (Part000_main_cases rt) as [_ [[m [H _]]|[[H _]|[a [s [r [H _]]]]]]].
    + rewrite Hf in H. discriminate.
    + rewrite H in Hw. discriminate.
    + now exists a, s, r.
Qed.

Lemma three_outputs_only_in_part_000_witness :
  exists a s r,
    outputs (fst (Part000.main unreviewed_runtime []))
    = [("isApproved", String_bool a);
       ("shouldLabelBeSet", String_bool s);
       ("shouldLabelBeRemoved", String_bool r)].
Proof.
  apply (proj2 three_outputs_only_in_part_000 unreviewed_runtime);
    reflexivity.
Defined.

(** ** The soft exit *)

Lemma Part000_soft_exit : soft_exit_claim Part000.main ["workflow_run"].
Proof.
  split; [|split].
  - intros rt token repository eventName Htoken Hrepo Hevent [<-|[]] Hnum.
    unfold Part000.main, Part000.run, try_catch, bind, getRequiredEnv.
    rewrite Htoken, Hrepo, Hevent, Hnum. simpl.
    now destruct (split_repository repository).
  - intros rt Hf Ho.
    destruct (Part000_main_cases rt)
      as [_ [[m [H _]]|[[H [He _]]|[a [s [r [H _]]]]]]].
    + rewrite Hf in H. discriminate.
    + split; [assumption|]. exists "workflow_run". simpl. auto.
    + rewrite Ho in H. discriminate.
  - intros rt token repository eventName Htoken Hrepo Hevent Hne Hnot.
    unfold Part000.main, Part000.run, Part000.resolve_number, try_catch, bind,
      getRequiredEnv.
    rewrite Htoken, Hrepo, Hevent. simpl.
    destruct (split_repository repository).
    apply String.eqb_neq in Hne. rewrite Hne.
    assert ((eventName =? "workflow_run") = false) as ->.
    { apply String.eqb_neq. intros ->. apply Hnot. now left. }
    reflexivity.
Qed.

Lemma IndexJs_soft_exit :
  soft_exit_claim IndexJs.main ["workflow_run"; "workflow_dispatch"].
Proof.
  split; [|split].
  - intros rt token repository eventName Htoken Hrepo Hevent Hin Hnum.
    unfold IndexJs.main, IndexJs.run, try_catch, bind, getRequiredEnv.
    rewrite Htoken, Hrepo, Hevent, Hnum. simpl.
    destruct (split_repository repository).
    destruct Hin as [<-|[<-|[]]]; reflexivity.
  - intros rt Hf Ho.
    destruct (IndexJs_main_cases rt)
      as [_ [[m [H _]]|[[H [He _]]|[a [H _]]]]].
    + rewrite Hf in H. discriminate.
    + split; [assumption|].
      destruct He as [He|He]; eexists; (split; [|exact He]); simpl; auto.
    + rewrite Ho in H. discriminate.
  - intros rt token repository eventName Htoken Hrepo Hevent Hne Hnot.
    unfold IndexJs.main, IndexJs.run, IndexJs.resolve_number, try_catch, bind,
      getRequiredEnv.
    rewrite Htoken, Hrepo, Hevent. simpl.
    destruct (split_repository repository).
    apply String.eqb_neq in Hne. rewrite Hne.
    assert ((eventName =? "workflow_run") = false) as ->.
    { apply String.eqb_neq. intros ->. apply Hnot. now left. }
    assert ((eventName =? "workflow_dispatch") = false) as ->.
    { apply String.eqb_neq. intros ->. apply Hnot. right. now left. }
    reflexivity.
Qed.

(** C8, as stated, fails on [src/index.js]: there a [workflow_dispatch]
    event with no [pullRequestNumber] input also takes the soft exit, so
    [workflow_run] is not the only event name of that path and
    [workflow_dispatch] is not fatal. *)
Lemma index_js_soft_exit_on_workflow_dispatch :
  ~ soft_exit_claim IndexJs.main ["workflow_run"].
Proof.
  intros [_ [_ H]].
  specialize (H dispatch_runtime "secret" "o/r" "workflow_dispatch"
                eq_refl eq_refl eq_refl).
  assert (IndexJs.main dispatch_runtime [] =
          ([SetFailed (unsupported_event_message "workflow_dispatch")],
           Normal tt)) as Hrun.
  { apply H; [discriminate|]. intros [Heq|[]]. discriminate. }
  discriminate Hrun.
Qed.

(** C8, amended. In [src/unnamed/part_000] the soft exit is taken on
    [workflow_run] only, in [src/index.js] on [workflow_run] and
    [workflow_dispatch]: with no [pullRequestNumber] input the run logs the
    warning, signals no failure and sets no output; no other run ends
    without a failure and without outputs; every other event name except
    [pull_request_review] is a fatal configuration error. *)
Theorem soft_exit_is_the_only_clean_early_exit :
  soft_exit_claim Part000.main ["workflow_run"]
  /\ soft_exit_claim IndexJs.main ["workflow_run"; "workflow_dispatch"].
Proof. split; [exact Part000_soft_exit | exact IndexJs_soft_exit]. Qed.

Lemma soft_exit_is_the_only_clean_early_exit_witness :
  Part000.main workflow_run_runtime []
  = ([Warning missing_number_warning], Normal tt).
Proof.
  apply (proj1 (proj1 soft_exit_is_the_only_clean_early_exit)
           workflow_run_runtime "secret" "o/r" "workflow_run");
    try reflexivity.
  simpl. auto.
Defined.

(** ** The label sentinel *)

(** With the sentinel as label the label block is skipped. *)
Ltac skip_labels :=
  lazymatch goal with
  | |- emits_at_most ?f ?n
         (bind (Part000.run_labels _ _ _ _ "not set" _ _ _ _) ?k) =>
      change (emits_at_most f n (k (false, false)))
  | |- emits_at_most ?f ?n
         (bind (IndexJs.run_labels _ _ _ _ "not set" _ _ _ _) ?k) =>
      change (emits_at_most f n (k (false, false)))
  end;
  emits_by skip_labels.

(** C9. When the [label] input is empty or is the string "not set", the
    label block of both files returns both flags [false] without any
    effect, whatever the approval decision, and the whole run requests no
    label application, no label removal and no comment and raises no flag
    output. *)
Theorem sentinel_label_disables_labeling :
  forall rt,
    getInput rt "label" = "" \/ getInput rt "label" = "not set" ->
    (forall octokit owner repo pullRequestNumber comment
            removeLabelWhenApprovalMissing isApproved labelNames t,
        Part000.run_labels octokit owner repo pullRequestNumber
          (or_default (getInput rt "label") "not set") comment
          removeLabelWhenApprovalMissing isApproved labelNames t
        = (t, Normal (false, false))
        /\ IndexJs.run_labels octokit owner repo pullRequestNumber
             (or_default (getInput rt "label") "not set") comment
             removeLabelWhenApprovalMissing isApproved labelNames t
           = (t, Normal (false, false)))
    /\ count_if labeling_effect (fst (Part000.main rt [])) = 0%nat
    /\ count_if labeling_effect (fst (IndexJs.main rt [])) = 0%nat.
Proof.
  intros rt Hlabel.
  assert (or_default (getInput rt "label") "not set" = "not set") as Hunset
    by (destruct Hlabel as [-> | ->]; reflexivity).
  split; [|split].
  - intros. rewrite Hunset. split; reflexivity.
  - assert (emits_at_most labeling_effect 0 (Part000.main rt)) as H.
    { unfold Part000.main, Part000.run. cbv zeta. rewrite Hunset.
      emits_by skip_labels. }
    destruct (H []) as [new [-> Hc]]. simpl. lia.
  - assert (emits_at_most labeling_effect 0 (IndexJs.main rt)) as H.
    { unfold IndexJs.main, IndexJs.run. cbv zeta. rewrite Hunset.
      emits_by skip_labels. }
    destruct (H []) as [new [-> Hc]]. simpl. lia.
Qed.

Lemma sentinel_label_disables_labeling_witness :
  count_if labeling_effect (fst (Part000.main unlabelled_runtime [])) = 0%nat.
Proof.
  apply (proj1 (proj2 (sentinel_label_disables_labeling unlabelled_runtime
                         (or_intror eq_refl)))).
Defined.

(** * Further properties of the code *)

(** ** The decision, beyond the claims *)

Lemma count_state_Permutation st m m' :
  Permutation m m' -> count_state st m = count_state st m'.
Proof.
  unfold count_state. induction 1; simpl; auto.
  - destruct (snd x =? st); simpl; auto.
  - destruct (snd x =? st), (snd y =? st); simpl; auto.
  - congruence.
Qed.

(** X1. The decision does not depend on the order in which the entries of
    [reviewStates] are enumerated. *)
Theorem decide_ignores_enumeration_order :
  forall m m' numOfApprovals,
    Permutation m m' -> decide m numOfApprovals = decide m' numOfApprovals.
Proof.
  intros m m' n H. rewrite !decide_counts.
  now rewrite !(count_state_Permutation _ m m' H).
Qed.

Lemma decide_ignores_enumeration_order_witness :
  decide [("alice", "APPROVED"); ("bob", "CHANGES_REQUESTED")] (Fin 1)
  = decide [("bob", "CHANGES_REQUESTED"); ("alice", "APPROVED")] (Fin 1).
Proof.
  apply decide_ignores_enumeration_order. apply perm_swap.
Defined.

Lemma length_ge_mono n n' x :
  (n <= n')%nat -> length_ge n x = true -> length_ge n' x = true.
Proof.
  destruct x; simpl; auto. rewrite !Z.leb_le. lia.
Qed.

Lemma count_state_obj_set_same st u m :
  (count_state st m <= count_state st (obj_set u st m))%nat.
Proof.
  unfold count_state. induction m as [|[k v] m IH]; simpl.
  - rewrite String.eqb_refl. simpl. lia.
  - destruct (k =? u); simpl.
    + rewrite String.eqb_refl. destruct (v =? st); simpl; lia.
    + destruct (v =? st); simpl; lia.
Qed.

Lemma count_state_obj_set_other st st' u m :
  st' <> st ->
  (count_state st (obj_set u st' m) <= count_state st m)%nat.
Proof.
  intros Hne. apply String.eqb_neq in Hne.
  unfold count_state. induction m as [|[k v] m IH]; simpl.
  - rewrite Hne. simpl. lia.
  - destruct (k =? u); simpl.
    + rewrite Hne. destruct (v =? st); simpl; lia.
    + destruct (v =? st); simpl; lia.
Qed.

(** X2. Approval is monotone: a lower threshold keeps an approval, and so
    does one more APPROVED review at the end of the sequence, whoever wrote
    it. *)
Theorem approval_is_monotone :
  forall reviews committers requireCommittersApproval,
    (forall z1 z2,
        (z1 <= z2)%Z ->
        processReviews reviews committers requireCommittersApproval (Fin z2)
        = true ->
        processReviews reviews committers requireCommittersApproval (Fin z1)
        = true)
    /\ (forall numOfApprovals r,
          state r = "APPROVED" ->
          processReviews reviews committers requireCommittersApproval
            numOfApprovals = true ->
          processReviews (reviews ++ [r]) committers requireCommittersApproval
            numOfApprovals = true).
Proof.
  intros reviews committers req. unfold processReviews. split.
  - intros z1 z2 Hle. rewrite !decide_counts, !andb_true_iff. simpl.
    rewrite !Z.leb_le. intros [H1 H2]. split; [lia | assumption].
  - intros n r Hst. unfold reviewStates. rewrite fold_left_app. simpl.
    rewrite recordReview_recorded.
    destruct (recorded committers req r); auto.
    rewrite Hst, !decide_counts, !andb_true_iff, !Nat.eqb_eq.
    intros [H1 H2]. split.
    + eapply length_ge_mono; [|exact H1]. apply count_state_obj_set_same.
    + pose proof (count_state_obj_set_other "CHANGES_REQUESTED" "APPROVED"
                    (login (user r))
                    (fold_left (recordReview committers req) reviews [])
                    ltac:(discriminate)).
      lia.
Qed.

Lemma approval_is_monotone_witness :
  processReviews
    ([review_of "alice" "APPROVED"] ++ [review_of "bob" "APPROVED"])
    [] false (Fin 1) = true.
Proof.
  apply (proj2 (approval_is_monotone [review_of "alice" "APPROVED"] [] false)
           (Fin 1) (review_of "bob" "APPROVED")); reflexivity.
Defined.

(** X3. Reviews in any state other than APPROVED and CHANGES_REQUESTED are
    ignored: the state map is that of the sequence without them, and such a
    review at the end of the sequence changes neither map nor decision. *)
Theorem other_states_are_ignored :
  forall reviews committers requireCommittersApproval,
    reviewStates reviews committers requireCommittersApproval
    = reviewStates (filter counted_state reviews) committers
        requireCommittersApproval
    /\ (forall r numOfApprovals,
          state r <> "APPROVED" -> state r <> "CHANGES_REQUESTED" ->
          reviewStates (reviews ++ [r]) committers requireCommittersApproval
          = reviewStates reviews committers requireCommittersApproval
          /\ processReviews (reviews ++ [r]) committers
               requireCommittersApproval numOfApprovals
             = processReviews reviews committers requireCommittersApproval
                 numOfApprovals).
Proof.
  intros reviews committers req. split.
  - unfold reviewStates. symmetry. apply fold_recordReview_filter.
    intros r H. unfold recorded. now rewrite H.
  - intros r n HA HC.
    assert (reviewStates (reviews ++ [r]) committers req
            = reviewStates reviews committers req) as Heq.
    { unfold reviewStates. rewrite fold_left_app. simpl.
      unfold recordReview.
      apply String.eqb_neq in HA, HC. now rewrite HA, HC. }
    split; [exact Heq|]. unfold processReviews. now rewrite Heq.
Qed.

Lemma other_states_are_ignored_witness :
  reviewStates
    ([review_of "alice" "APPROVED"] ++ [review_of "alice" "COMMENTED"])
    [] false
  = reviewStates [review_of "alice" "APPROVED"] [] false.
Proof.
  apply (proj1 (proj2 (other_states_are_ignored
                         [review_of "alice" "APPROVED"] [] false)
                  (review_of "alice" "COMMENTED") (Fin 1)
                  ltac:(discriminate) ltac:(discriminate))).
Defined.

Lemma fold_recordReview_keys committers req reviews m k :
  In k (map fst (fold_left (recordReview committers req) reviews m)) ->
  In k (map fst m) \/ exists r, In r reviews /\ login (user r) = k.
Proof.
  revert m. induction reviews as [|r rs IH]; simpl; intros m H; auto.
  destruct (IH _ H) as [Hk|[r' [Hin Hr']]].
  - rewrite recordReview_recorded in Hk.
    destruct (recorded committers req r).
    + rewrite obj_set_keys in Hk. destruct (existsb _ m); auto.
      apply in_app_or in Hk. destruct Hk as [Hk|[<-|[]]]; auto.
      right. exists r. auto.
    + auto.
  - right. exists r'. auto.
Qed.

Lemma NoDup_constant_length (l : list string) u :
  NoDup l -> (forall x, In x l -> x = u) -> (length l <= 1)%nat.
Proof.
  intros Hnd Hall. destruct l as [|a [|b l]]; simpl; try lia.
  exfalso. inversion Hnd as [|? ? Hnotin _]; subst. apply Hnotin.
  rewrite (Hall a), (Hall b); simpl; auto.
Qed.

(** X4. A reviewer counts once: when every review is by the same login, a
    threshold of two or more is never met, however often that reviewer
    approved. *)
Theorem single_reviewer_never_meets_two :
  forall reviews committers requireCommittersApproval u z,
    (forall r, In r reviews -> login (user r) = u) ->
    (2 <= z)%Z ->
    processReviews reviews committers requireCommittersApproval (Fin z)
    = false.
Proof.
  intros reviews committers req u z Hall Hz. unfold processReviews.
  rewrite decide_counts. apply andb_false_intro1. simpl. apply Z.leb_gt.
  assert (length (reviewStates reviews committers req) <= 1)%nat as Hlen.
  { rewrite <- (length_map fst).
    apply (NoDup_constant_length _ u).
    - apply fold_recordReview_NoDup. constructor.
    - intros k Hk. apply fold_recordReview_keys in Hk.
      destruct Hk as [[]|[r [Hin <-]]]. now apply Hall. }
  assert (count_state "APPROVED" (reviewStates reviews committers req)
          <= length (reviewStates reviews committers req))%nat
    by (unfold count_state; apply filter_length_le).
  lia.
Qed.

Lemma single_reviewer_never_meets_two_witness :
  processReviews
    [review_of "alice" "APPROVED"; review_of "alice" "APPROVED";
     review_of "alice" "APPROVED"] [] false (Fin 2) = false.
Proof.
  apply (single_reviewer_never_meets_two _ [] false "alice" 2).
  - simpl. intros r [<-|[<-|[<-|[]]]]; reflexivity.
  - discriminate.
Defined.

(** ** The repository name *)

Lemma split_on_nonempty sep s : split_on sep s <> [].
Proof.
  destruct s as [|c s]; simpl; [discriminate|].
  destruct (Ascii.eqb c sep); [discriminate|].
  destruct (split_on sep s); discriminate.
Qed.

Lemma split_on_segment o s :
  no_slash o = true ->
  split_on "/"%char (o ++ String "/"%char s)%string
  = o :: split_on "/"%char s.
Proof.
  induction o as [|c o IH]; simpl; intros H; auto.
  apply andb_prop in H. destruct H as [Hc Ho].
  apply negb_true_iff in Hc. rewrite Hc, (IH Ho). reflexivity.
Qed.

Lemma split_on_last o :
  no_slash o = true -> split_on "/"%char o = [o].
Proof.
  induction o as [|c o IH]; simpl; intros H; auto.
  apply andb_prop in H. destruct H as [Hc Ho].
  apply negb_true_iff in Hc. rewrite Hc, (IH Ho). reflexivity.
Qed.

(** X5. [const [owner, repo] = repository.split('/')]: from
    [owner/repo] the two names come back, further segments are dropped, and
    a name without a slash leaves [repo] undefined. *)
Theorem split_repository_owner_and_repo :
  forall o r,
    no_slash o = true -> no_slash r = true ->
    split_repository (o ++ "/" ++ r) = (o, Some r)
    /\ (forall rest, split_repository (o ++ "/" ++ r ++ "/" ++ rest)
                     = (o, Some r))
    /\ split_repository o = (o, None).
Proof.
  intros o r Ho Hr. unfold split_repository. simpl append.
  split; [|split].
  - now rewrite (split_on_segment o r Ho), (split_on_last r Hr).
  - intros rest.
    rewrite (split_on_segment o _ Ho), (split_on_segment r rest Hr).
    reflexivity.
  - now rewrite (split_on_last o Ho).
Qed.

Lemma split_repository_owner_and_repo_witness :
  split_repository ("octo-org" ++ "/" ++ "hello-world")
  = ("octo-org", Some "hello-world").
Proof.
  apply (proj1 (split_repository_owner_and_repo "octo-org" "hello-world"
                  eq_refl eq_refl)).
Defined.

(** ** Configuration errors of [run] *)

(** X6. A missing required input or environment variable is thrown before
    the [try] block and reaches the final [catch]: in both files the run
    makes no request, sets no output and only signals the failure, with the
    message of [getRequiredEnv] for a variable. *)
Theorem missing_configuration_is_fatal :
  forall rt,
    (forall e, getInputRequired rt "token" = inl e ->
               Part000.main rt [] = ([SetFailed (message e)], Normal tt)
               /\ IndexJs.main rt [] = ([SetFailed (message e)], Normal tt))
    /\ (forall token,
          getInputRequired rt "token" = inr token ->
          process_env rt "GITHUB_REPOSITORY" = None ->
          Part000.main rt []
          = ([SetFailed "GITHUB_REPOSITORY was not defined."], Normal tt)
          /\ IndexJs.main rt []
             = ([SetFailed "GITHUB_REPOSITORY was not defined."], Normal tt))
    /\ (forall token repository,
          getInputRequired rt "token" = inr token ->
          process_env rt "GITHUB_REPOSITORY" = Some repository ->
          process_env rt "GITHUB_EVENT_NAME" = None ->
          Part000.main rt []
          = ([SetFailed "GITHUB_EVENT_NAME was not defined."], Normal tt)
          /\ IndexJs.main rt []
             = ([SetFailed "GITHUB_EVENT_NAME was not defined."], Normal tt)).
Proof.
  intros rt. split; [|split].
  - intros e H.
    unfold Part000.main, IndexJs.main, Part000.run, IndexJs.run, try_catch,
      bind.
    rewrite H. split; reflexivity.
  - intros token H1 H2.
    unfold Part000.main, IndexJs.main, Part000.run, IndexJs.run, try_catch,
      bind, getRequiredEnv.
    rewrite H1, H2. split; reflexivity.
  - intros token repository H1 H2 H3.
    unfold Part000.main, IndexJs.main, Part000.run, IndexJs.run, try_catch,
      bind, getRequiredEnv.
    rewrite H1, H2, H3. split; reflexivity.
Qed.

Lemma missing_configuration_is_fatal_witness :
  Part000.main bare_runtime []
  = ([SetFailed "GITHUB_REPOSITORY was not defined."], Normal tt).
Proof.
  apply (proj1 (proj2 (missing_configuration_is_fatal bare_runtime))
           "secret"); reflexivity.
Defined.

(** X7. On a [pull_request_review] event whose payload carries no pull
    request, or one without a number, both files fail with the fixed
    message before any request, whatever the [pullRequestNumber] input. *)
Theorem review_event_without_pull_request_is_fatal :
  forall rt token repository,
    getInputRequired rt "token" = inr token ->
    process_env rt "GITHUB_REPOSITORY" = Some repository ->
    process_env rt "GITHUB_EVENT_NAME" = Some "pull_request_review" ->
    (payload_pull_request (context rt) = None
     \/ exists p, payload_pull_request (context rt) = Some p
                  /\ ref_number p = None) ->
    Part000.main rt []
    = ([SetFailed "Could not find PR number from context, exiting"],
       Normal tt)
    /\ IndexJs.main rt []
       = ([SetFailed "Could not find PR number from context, exiting"],
          Normal tt).
Proof.
  intros rt token repository H1 H2 H3 Hp.
  unfold Part000.main, IndexJs.main, Part000.run, IndexJs.run,
    Part000.resolve_number, IndexJs.resolve_number, try_catch, bind,
    getRequiredEnv.
  rewrite H1, H2, H3. simpl. destruct (split_repository repository).
  destruct Hp as [-> | [p [-> ->]]]; split; reflexivity.
Qed.

Lemma review_event_without_pull_request_is_fatal_witness :
  IndexJs.main detached_review_runtime []
  = ([SetFailed "Could not find PR number from context, exiting"], Normal tt).
Proof.
  apply (proj2 (review_event_without_pull_request_is_fatal
                  detached_review_runtime "secret" "o/r"
                  eq_refl eq_refl eq_refl (or_introl eq_refl))).
Defined.

(** X8. The sentinel of the [pullRequestNumber] input collides with a
    literal value: on the events that need the input, the text "not set"
    given as the number takes the soft exit like a missing input. *)
Theorem sentinel_pull_request_number_takes_soft_exit :
  forall rt token repository,
    getInputRequired rt "token" = inr token ->
    process_env rt "GITHUB_REPOSITORY" = Some repository ->
    getInput rt "pullRequestNumber" = "not set" ->
    (process_env rt "GITHUB_EVENT_NAME" = Some "workflow_run" ->
     Part000.main rt [] = ([Warning missing_number_warning], Normal tt)
     /\ IndexJs.main rt [] = ([Warning missing_number_warning], Normal tt))
    /\ (process_env rt "GITHUB_EVENT_NAME" = Some "workflow_dispatch" ->
        IndexJs.main rt [] = ([Warning missing_number_warning], Normal tt)).
Proof.
  intros rt token repository H1 H2 H3.
  split; intros H4;
    unfold Part000.main, IndexJs.main, Part000.run, IndexJs.run,
      Part000.resolve_number, IndexJs.resolve_number, try_catch, bind,
      getRequiredEnv;
    rewrite H1, H2, H3, H4; simpl; destruct (split_repository repository);
    try split; reflexivity.
Qed.

Lemma sentinel_pull_request_number_takes_soft_exit_witness :
  Part000.main sentinel_number_runtime []
  = ([Warning missing_number_warning], Normal tt).
Proof.
  apply (proj1 (proj1 (sentinel_pull_request_number_takes_soft_exit
                         sentinel_number_runtime "secret" "o/r"
                         eq_refl eq_refl eq_refl) eq_refl)).
Defined.

(** ** The first request of a run *)

(** X9. The pull request is fetched first, for the repository named by
    [GITHUB_REPOSITORY]: on [pull_request_review] under the number of the
    payload, whatever the [pullRequestNumber] input says; on
    [workflow_run] under [parseInt] of that input. *)
Theorem first_request_fetches_the_pull_request :
  forall rt token repository,
    getInputRequired rt "token" = inr token ->
    process_env rt "GITHUB_REPOSITORY" = Some repository ->
    (forall p n,
        process_env rt "GITHUB_EVENT_NAME" = Some "pull_request_review" ->
        payload_pull_request (context rt) = Some p ->
        ref_number p = Some n ->
        first_call (fst (Part000.main rt []))
        = Some (GetPull (fst (split_repository repository))
                  (snd (split_repository repository)) (Fin n))
        /\ first_call (fst (IndexJs.main rt []))
           = Some (GetPull (fst (split_repository repository))
                     (snd (split_repository repository)) (Fin n)))
    /\ (process_env rt "GITHUB_EVENT_NAME" = Some "workflow_run" ->
        getInput rt "pullRequestNumber" <> "" ->
        getInput rt "pullRequestNumber" <> "not set" ->
        first_call (fst (Part000.main rt []))
        = Some (GetPull (fst (split_repository repository))
                  (snd (split_repository repository))
                  (parseInt rt (getInput rt "pullRequestNumber")))
        /\ first_call (fst (IndexJs.main rt []))
           = Some (GetPull (fst (split_repository repository))
                     (snd (split_repository repository))
                     (parseInt rt (getInput rt "pullRequestNumber")))).
Proof.
  intros rt token repository H1 H2.
  assert (("workflow_run" =? "pull_request_review") = false) as Hwr
    by reflexivity.
  split.
  - intros p n H3 H4 H5.
    unfold Part000.main, IndexJs.main, Part000.run, IndexJs.run,
      Part000.resolve_number, IndexJs.resolve_number, IndexJs.unbound,
      try_catch, bind, getRequiredEnv, request, throw, ret, setFailed,
      warning, verboseOutput, setOutput, emit.
    rewrite H1, H2, H3, H4, H5, String.eqb_refl.
    destruct (split_repository repository) as [owner repo].
    split; repeat open_run; reflexivity.
  - intros H3 Hne1 Hne2.
    assert (or_default (getInput rt "pullRequestNumber") "not set"
            = getInput rt "pullRequestNumber") as Hin.
    { unfold or_default. apply String.eqb_neq in Hne1. now rewrite Hne1. }
    apply String.eqb_neq in Hne2.
    unfold Part000.main, IndexJs.main, Part000.run, IndexJs.run,
      Part000.resolve_number, IndexJs.resolve_number, IndexJs.unbound,
      try_catch, bind, getRequiredEnv, request, throw, ret, setFailed,
      warning, verboseOutput, setOutput, emit.
    rewrite H1, H2, H3, Hin, Hwr, Hne2, String.eqb_refl.
    destruct (split_repository repository) as [owner repo].
    split; repeat open_run; try reflexivity.
    all: match goal with H : true || _ = false |- _ => discriminate H end.
Qed.

Lemma first_request_fetches_the_pull_request_witness :
  first_call (fst (Part000.main conflicting_number_runtime []))
  = Some (GetPull (fst (split_repository "o/r"))
            (snd (split_repository "o/r")) (Fin 7)).
Proof.
  apply (proj1 (proj1 (first_request_fetches_the_pull_request
                         conflicting_number_runtime "secret" "o/r"
                         eq_refl eq_refl)
                  {| ref_number := Some 7%Z |} 7%Z eq_refl eq_refl eq_refl)).
Defined.

(** ** How a run ends *)

(** X10. No run rejects: every exception ends in [setFailed], at most
    once. In [src/unnamed/part_000] the outputs are all or nothing: a run
    sets none or the three, and a run that signals a failure sets none. *)
Theorem runs_end_normally_with_at_most_one_failure :
  forall rt,
    snd (Part000.main rt []) = Normal tt
    /\ snd (IndexJs.main rt []) = Normal tt
    /\ (length (failures (fst (Part000.main rt []))) <= 1)%nat
    /\ (length (failures (fst (IndexJs.main rt []))) <= 1)%nat
    /\ (length (outputs (fst (Part000.main rt []))) = 0%nat
        \/ length (outputs (fst (Part000.main rt []))) = 3%nat)
    /\ (failures (fst (Part000.main rt [])) <> [] ->
        outputs (fst (Part000.main rt [])) = []).
Proof.
  intros rt.
  destruct (Part000_main_cases rt) as [Hp Hpc].
  destruct (IndexJs_main_cases rt) as [Hi Hic].
  split; [exact Hp|]. split; [exact Hi|].
  split; [|split; [|split]].
  - destruct Hpc as [[m [-> _]]|[[-> _]|[a [s [r [_ [-> _]]]]]]]; simpl; lia.
  - destruct Hic as [[m [-> _]]|[[-> _]|[a [_ [-> _]]]]]; simpl; lia.
  - destruct Hpc as [[m [_ [-> _]]]|[[-> _]|[a [s [r [-> _]]]]]]; simpl; auto.
  - destruct Hpc as [[m [_ [-> _]]]|[[-> _]|[a [s [r [_ [-> _]]]]]]]; simpl;
      auto; intros H; now elim H.
Qed.

Lemma runs_end_normally_with_at_most_one_failure_witness :
  outputs (fst (Part000.main bare_runtime [])) = [].
Proof.
  apply (proj2 (proj2 (proj2 (proj2 (proj2
           (runs_end_normally_with_at_most_one_failure bare_runtime)))))).
  discriminate.
Defined.

(** ** What the label block requests *)

(** X11. The label block of [src/unnamed/part_000] appends nothing, or one
    label application (when approved and the label is absent), or an
    accepted label application followed by the comment (when in addition a
    comment is configured), or one label removal (when not approved, the
    label is present and removal is enabled). So a comment is never posted
    without the label having just been applied, and a pull request that
    already carries the label gets neither. *)
Theorem label_block_requests :
  forall octokit owner repo pullRequestNumber userLabel comment
         removeLabelWhenApprovalMissing isApproved labelNames t,
  exists new c,
    Part000.run_labels octokit owner repo pullRequestNumber userLabel comment
      removeLabelWhenApprovalMissing isApproved labelNames t = (t ++ new, c)
    /\ (new = []
        \/ (isApproved = true /\ includes labelNames userLabel = false
            /\ exists reply,
                new = [Request (PostLabels owner repo pullRequestNumber
                                  [userLabel]) reply]
                /\ (reply = NoData -> comment = ""))
        \/ (isApproved = true /\ includes labelNames userLabel = false
            /\ comment <> ""
            /\ exists reply,
                new = [Request (PostLabels owner repo pullRequestNumber
                                  [userLabel]) NoData;
                       Request (PostComment owner repo pullRequestNumber
                                  comment) reply])
        \/ (isApproved = false /\ includes labelNames userLabel = true
            /\ removeLabelWhenApprovalMissing = true
            /\ exists reply,
                new = [Request (DeleteLabel owner repo pullRequestNumber
                                  userLabel) reply])).
Proof.
  intros octokit owner repo n userLabel comment rm isApproved labelNames t.
  unfold Part000.run_labels, Part000.addComment, setLabel, removeLabel, bind,
    request, ret.
  destruct (userLabel =? "not set"); simpl.
  { exists [], (Normal (false, false)). rewrite app_nil_r. auto. }
  destruct isApproved, (includes labelNames userLabel), rm; simpl;
    try (eexists [], _; rewrite app_nil_r; split; [reflexivity | now left]).
  - destruct (respond_write octokit t _) as [e|[]].
    + eexists; eexists; split; [reflexivity|]. right; left.
      repeat split; auto. eexists; split; [reflexivity | discriminate].
    + destruct (comment =? "") eqn:Ec; simpl.
      * apply String.eqb_eq in Ec.
        eexists; eexists; split; [reflexivity|]. right; left.
        repeat split; auto. eexists; split; [reflexivity | auto].
      * apply String.eqb_neq in Ec.
        destruct (respond_write octokit _ _) as [e|[]];
          (eexists; eexists; split;
           [rewrite <- app_assoc; reflexivity|]);
          right; right; left; repeat split; auto; eexists; reflexivity.
  - destruct (respond_write octokit t _) as [e|[]].
    + eexists; eexists; split; [reflexivity|]. right; left.
      repeat split; auto. eexists; split; [reflexivity | discriminate].
    + destruct (comment =? "") eqn:Ec; simpl.
      * apply String.eqb_eq in Ec.
        eexists; eexists; split; [reflexivity|]. right; left.
        repeat split; auto. eexists; split; [reflexivity | auto].
      * apply String.eqb_neq in Ec.
        destruct (respond_write octokit _ _) as [e|[]];
          (eexists; eexists; split;
           [rewrite <- app_assoc; reflexivity|]);
          right; right; left; repeat split; auto; eexists; reflexivity.
  - destruct (respond_write octokit t _) as [e|[]];
      (eexists; eexists; split; [reflexivity|]);
      right; right; right; repeat split; auto; eexists; reflexivity.
Qed.

(** X12. [src/index.js] never posts the comment: [addComment] is not
    declared there, so when the label has been applied and a comment is
    configured the label block throws a ReferenceError, and the run ends
    with the label applied, the failure signalled and no output set. *)
Theorem index_js_never_posts_the_comment :
  (forall rt, count_if is_comment (fst (IndexJs.main rt [])) = 0%nat)
  /\ (forall octokit owner repo pullRequestNumber userLabel comment
             removeLabelWhenApprovalMissing labelNames t,
        userLabel <> "not set" ->
        includes labelNames userLabel = false ->
        comment <> "" ->
        respond_write octokit t
          (PostLabels owner repo pullRequestNumber [userLabel]) = inr tt ->
        IndexJs.run_labels octokit owner repo pullRequestNumber userLabel
          comment removeLabelWhenApprovalMissing true labelNames t
        = (t ++ [Request (PostLabels owner repo pullRequestNumber [userLabel])
                   NoData],
           Throw (ReferenceError "addComment is not defined"))).
Proof.
  split.
  - intros rt.
    assert (emits_at_most is_comment 0 (IndexJs.main rt)) as H by emits.
    destruct (H []) as [new [-> Hc]]. simpl. lia.
  - intros octokit owner repo n userLabel comment rm labelNames t
           Hl Hin Hc Hw.
    apply String.eqb_neq in Hl, Hc.
    unfold IndexJs.run_labels, IndexJs.unbound, setLabel, bind, request,
      throw.
    rewrite Hl, Hin. simpl. rewrite Hw, Hc. reflexivity.
Qed.

Lemma index_js_never_posts_the_comment_witness :
  IndexJs.run_labels sample_octokit "o" (Some "r") 7 "approved" "Thanks!"
    false true ["bug"] []
  = ([] ++ [Request (PostLabels "o" (Some "r") 7 ["approved"]) NoData],
     Throw (ReferenceError "addComment is not defined")).
Proof.
  apply (proj2 index_js_never_posts_the_comment sample_octokit "o" (Some "r")
           7%Z "approved" "Thanks!" false ["bug"] []);
    try reflexivity; discriminate.
Defined.

(** The run of [src/index.js] on an approved, unlabelled pull request with
    a comment configured. *)
Example index_js_run_stops_at_addComment :
  IndexJs.main
    (sample_runtime
       [("token", "secret"); ("label", "approved"); ("comment", "Thanks!");
        ("numOfApprovals", "0")]
       [("GITHUB_REPOSITORY", "o/r");
        ("GITHUB_EVENT_NAME", "pull_request_review")]
       {| payload_pull_request := Some {| ref_number := Some 7%Z |} |}
       (fixed_octokit sample_pull [] sample_permission)) []
  = ([Request (GetPull "o" (Some "r") (Fin 7)) (PullData sample_pull);
      Request (GetPullReviews "o" (Some "r") 7) (ReviewsData []);
      Request (PostLabels "o" (Some "r") 7 ["approved"]) NoData;
      SetFailed "addComment is not defined"],
     Normal tt).
Proof. reflexivity. Qed.

(** X13. A run fetches the pull request at most once and the review list at
    most once, posts at most one comment and logs at most one warning. *)
Theorem each_request_is_made_at_most_once :
  forall rt,
    (count_if is_pull_fetch (fst (Part000.main rt [])) <= 1)%nat
    /\ (count_if is_reviews_fetch (fst (Part000.main rt [])) <= 1)%nat
    /\ (count_if is_comment (fst (Part000.main rt [])) <= 1)%nat
    /\ (count_if is_warning (fst (Part000.main rt [])) <= 1)%nat
    /\ (count_if is_pull_fetch (fst (IndexJs.main rt [])) <= 1)%nat
    /\ (count_if is_reviews_fetch (fst (IndexJs.main rt [])) <= 1)%nat
    /\ (count_if is_warning (fst (IndexJs.main rt [])) <= 1)%nat.
Proof.
  intros rt.
  assert (forall f, emits_at_most f 1 (Part000.main rt) ->
                    (count_if f (fst (Part000.main rt [])) <= 1)%nat) as Hp.
  { intros f H. destruct (H []) as [new [-> Hc]]. exact Hc. }
  assert (forall f, emits_at_most f 1 (IndexJs.main rt) ->
                    (count_if f (fst (IndexJs.main rt [])) <= 1)%nat) as Hi.
  { intros f H. destruct (H []) as [new [-> Hc]]. exact Hc. }
  repeat split; (apply Hp || apply Hi); emits.
Qed.

(** ** The outputs of [src/unnamed/part_000] *)

Lemma Part000_run_labels_summary o ow re n l c rm a ls t :
  exists new r,
    Part000.run_labels o ow re n l c rm a ls t = (t ++ new, r)
    /\ outputs new = [] /\ failures new = [] /\ warnings new = []
    /\ forall s d, r = Normal (s, d) ->
                   (s = true -> a = true) /\ (d = true -> a = false).
Proof.
  destruct (Part000_run_labels_requests o ow re n l c rm a ls t)
    as (new & r & E & Ho & Hf & Hw).
  exists new, r. repeat split; auto; intros Hflag;
    destruct (Part000_label_flags_exclusive o ow re n l c rm a ls t s d)
      as (H1 & H2 & _); try (rewrite E; assumption).
  - now apply H1.
  - now apply H2.
Qed.

(** As [open_run], with the flags of the label block kept. *)
Ltac open_run_flags :=
  cbv beta iota zeta;
  first
    [ match goal with
      | |- context [Part000.run_labels ?a ?b ?c ?d ?e ?f ?g ?h ?i ?t] =>
          let E := fresh "E" in
          destruct (Part000_run_labels_summary a b c d e f g h i t)
            as (?new & ?c & E & ?Ho & ?Hf & ?Hw & ?Hflags);
          rewrite E; clear E
      end
    | open_run ].

(** X14. The three outputs of [src/unnamed/part_000] agree with each other:
    [shouldLabelBeSet] is [true] only beside [isApproved] [true],
    [shouldLabelBeRemoved] is [true] only beside [isApproved] [false]. *)
Theorem outputs_are_consistent :
  forall rt,
    outputs (fst (Part000.main rt [])) = []
    \/ exists a s r,
        outputs (fst (Part000.main rt []))
        = [("isApproved", String_bool a);
           ("shouldLabelBeSet", String_bool s);
           ("shouldLabelBeRemoved", String_bool r)]
        /\ (s = true -> a = true) /\ (r = true -> a = false).
Proof.
  intros rt.
  unfold Part000.main, Part000.run, Part000.resolve_number, try_catch, bind,
    getRequiredEnv, request, throw, ret, setFailed, warning, verboseOutput,
    setOutput, emit.
  repeat open_run_flags.
  all: cbv beta iota zeta; simpl fst;
    repeat (simpl; rewrite ?outputs_app);
    repeat match goal with
           | H : outputs _ = [] |- _ => rewrite H; clear H
           end;
    simpl.
  all: try (left; reflexivity).
  all: right; do 3 eexists; split; [reflexivity|].
  all: match goal with
       | H : forall s d, Normal _ = Normal _ -> _ |- _ =>
           exact (H _ _ eq_refl)
       end.
Qed.

(** ** Rejected requests in [getReviews] *)




(** ** A threshold that is not a number *)

Lemma processReviews_NaN reviews committers req :
  processReviews reviews committers req NaN = false.
Proof. unfold processReviews. now rewrite decide_counts. Qed.

(** With the decision known to be [false]. *)
Ltac unapproved :=
  rewrite processReviews_NaN;
  try unfold Part000.run_labels; try unfold IndexJs.run_labels;
  cbn [andb];
  emits_by unapproved.

(** X16. When [numOfApprovals] does not parse ([parseInt] gives NaN), no
    review sequence is approved, and a run neither applies the label nor
    sets [isApproved] to [true]. *)
Theorem unparsable_threshold_never_approves :
  forall rt,
    read_numOfApprovals rt = NaN ->
    (forall reviews committers requireCommittersApproval,
        processReviews reviews committers requireCommittersApproval
          (read_numOfApprovals rt) = false)
    /\ count_if is_approval_signal (fst (Part000.main rt [])) = 0%nat
    /\ count_if is_approval_signal (fst (IndexJs.main rt [])) = 0%nat.
Proof.
  intros rt Hnan. split; [|split].
  - intros. rewrite Hnan. apply processReviews_NaN.
  - assert (emits_at_most is_approval_signal 0 (Part000.main rt)) as H.
    { unfold Part000.main, Part000.run. cbv zeta. rewrite Hnan.
      emits_by unapproved. }
    destruct (H []) as [new [-> Hc]]. simpl. lia.
  - assert (emits_at_most is_approval_signal 0 (IndexJs.main rt)) as H.
    { unfold IndexJs.main, IndexJs.run. cbv zeta. rewrite Hnan.
      emits_by unapproved. }
    destruct (H []) as [new [-> Hc]]. simpl. lia.
Qed.

Lemma unparsable_threshold_never_approves_witness :
  count_if is_approval_signal
    (fst (Part000.main unparsable_threshold_runtime [])) = 0%nat.
Proof.
  apply (proj1 (proj2 (unparsable_threshold_never_approves
                         unparsable_threshold_runtime eq_refl))).
Defined.

(** ** Where the two files agree *)


